(** * mailat Python SDKs: transport retry loop and webhook verification

    A shallow embedding of the two pieces of the SDKs that carry logic of
    their own:

    - [packages/sdk-python/mailat/client.py]: [Mailat._request],
      [Emails.send_batch], [Mailat.verify_webhook_signature] and
      [Mailat.parse_webhook_payload];
    - [sdks/python/mailat/client.py]: [Mailat.__init__], [Mailat.request]
      and [Mailat._handle_error]; [sdks/python/mailat/resources]:
      [EmailsResource.send_batch], [WebhooksResource.verify_signature] and
      [TemplatesResource.extract_variables].

    Conventions.  A Python [str] is represented by the byte string of its
    UTF-8 encoding (Rocq's [string] is a list of 8-bit characters), so
    [s.encode("utf-8")] is the identity and [b.decode("utf-8")] is UTF-8
    validation.  The separators the code searches for are ASCII, so splitting
    and replacing commute with the encoding.  A [str] with a lone surrogate
    has no UTF-8 encoding: such strings are outside this representation, and
    a statement about a [str] is about one that [encode] accepts.  Where the
    code looks at characters rather than bytes ([int()], [str.strip],
    [str.split], the regular expression of [extract_variables]) the model
    works on code points.  Python integers are [Z].  A call either returns a
    value or raises: [outcome]. *)

From stdpp Require Import base strings list gmap.
From Stdlib Require Import ZArith Lia Ascii DecimalString DecimalZ PrimFloat.

Local Open Scope string_scope.
Local Open Scope Z_scope.

(** ** Bytes *)

(** Python [bytes]. *)
Abbreviation bytes := (list Byte.byte).

Definition Z_of_byte (b : Byte.byte) : Z := Z.of_N (Byte.to_N b).

(** [s.encode("utf-8")] and [s.encode()]: the identity on the representation. *)
Definition encode (s : string) : bytes := String.list_byte_of_string s.

Fixpoint string_of_chars (l : list ascii) : string :=
  match l with
  | [] => EmptyString
  | c :: l' => String c (string_of_chars l')
  end.

(** ** SHA-256 (FIPS 180-4), the function behind [hashlib.sha256] *)

Module SHA256.

Definition w32 (x : Z) : Z := x mod 4294967296.
Definition add32 (x y : Z) : Z := w32 (x + y).
Definition rotr (n x : Z) : Z :=
  Z.lor (Z.shiftr x n) (w32 (Z.shiftl x (32 - n))).
Definition not32 (x : Z) : Z := 4294967295 - x.

Definition Ch (x y z : Z) : Z := Z.lxor (Z.land x y) (Z.land (not32 x) z).
Definition Maj (x y z : Z) : Z :=
  Z.lxor (Z.lxor (Z.land x y) (Z.land x z)) (Z.land y z).
Definition Sigma0 (x : Z) : Z := Z.lxor (Z.lxor (rotr 2 x) (rotr 13 x)) (rotr 22 x).
Definition Sigma1 (x : Z) : Z := Z.lxor (Z.lxor (rotr 6 x) (rotr 11 x)) (rotr 25 x).
Definition sigma0 (x : Z) : Z := Z.lxor (Z.lxor (rotr 7 x) (rotr 18 x)) (Z.shiftr x 3).
Definition sigma1 (x : Z) : Z := Z.lxor (Z.lxor (rotr 17 x) (rotr 19 x)) (Z.shiftr x 10).

(** The constants are fractional bits of roots of the first primes. *)
Definition is_prime (n : Z) : bool :=
  (1 <? n) && forallb (fun d => negb (n mod Z.of_nat d =? 0)) (seq 2 (Z.to_nat n - 2)).

Definition first_primes (count : nat) : list Z :=
  firstn count (List.filter is_prime (map Z.of_nat (seq 2 310))).

(** The largest [r < 2^40] with [r^k <= x], one bit at a time. *)
Definition iroot (k x : Z) : Z :=
  fold_left (fun r b => let r' := r + 2 ^ Z.of_nat b in if r' ^ k <=? x then r' else r)
            (rev (seq 0 40)) 0.

(** First 32 bits of the fractional part of the [k]-th root of [p]. *)
Definition root_fraction (k p : Z) : Z := w32 (iroot k (p * 2 ^ (32 * k))).

Definition K : list Z :=
  Eval vm_compute in map (root_fraction 3) (first_primes 64).

(** The eight working variables / chaining values. *)
Record state := St { sa : Z; sb : Z; sc : Z; sd : Z; se : Z; sf : Z; sg : Z; sh : Z }.

Definition state_of_list (l : list Z) : state :=
  St (nth 0 l 0) (nth 1 l 0) (nth 2 l 0) (nth 3 l 0)
     (nth 4 l 0) (nth 5 l 0) (nth 6 l 0) (nth 7 l 0).

Definition H0 : state :=
  Eval vm_compute in state_of_list (map (root_fraction 2) (first_primes 8)).

Definition be_bytes (n : nat) (x : Z) : list Z :=
  map (fun i => Z.shiftr x (8 * Z.of_nat i) mod 256) (rev (seq 0 n)).

Definition pad (msg : list Z) : list Z :=
  let l := Z.of_nat (length msg) in
  let k := (55 - l) mod 64 in
  msg ++ [128] ++ repeat 0 (Z.to_nat k) ++ be_bytes 8 (8 * l).

Fixpoint be_word (bs : list Z) (acc : Z) : Z :=
  match bs with
  | [] => acc
  | b :: bs' => be_word bs' (acc * 256 + b)
  end.

Fixpoint words (fuel : nat) (bs : list Z) : list Z :=
  match fuel, bs with
  | O, _ | _, [] => []
  | S fuel', _ => be_word (firstn 4 bs) 0 :: words fuel' (skipn 4 bs)
  end.

Fixpoint blocks (fuel : nat) (ws : list Z) : list (list Z) :=
  match fuel, ws with
  | O, _ | _, [] => []
  | S fuel', _ => firstn 16 ws :: blocks fuel' (skipn 16 ws)
  end.

Definition wget (w : list Z) (i : nat) : Z := nth i w 0.

(** Message schedule: [w] holds W[0..t-1]; extend it [n] more times. *)
Fixpoint schedule (n : nat) (w : list Z) : list Z :=
  match n with
  | O => w
  | S n' =>
      let t := length w in
      let x := add32 (add32 (sigma1 (wget w (t - 2))) (wget w (t - 7)))
                     (add32 (sigma0 (wget w (t - 15))) (wget w (t - 16))) in
      schedule n' (w ++ [x])
  end.

Definition round (s : state) (kw : Z * Z) : state :=
  let t1 := add32 (add32 (add32 (add32 (sh s) (Sigma1 (se s)))
                                (Ch (se s) (sf s) (sg s))) (fst kw)) (snd kw) in
  let t2 := add32 (Sigma0 (sa s)) (Maj (sa s) (sb s) (sc s)) in
  St (add32 t1 t2) (sa s) (sb s) (sc s) (add32 (sd s) t1) (se s) (sf s) (sg s).

Definition compress (h : state) (block : list Z) : state :=
  let w := schedule 48 block in
  let s := fold_left round (combine K w) h in
  St (add32 (sa h) (sa s)) (add32 (sb h) (sb s)) (add32 (sc h) (sc s))
     (add32 (sd h) (sd s)) (add32 (se h) (se s)) (add32 (sf h) (sf s))
     (add32 (sg h) (sg s)) (add32 (sh h) (sh s)).

Definition state_bytes (s : state) : list Z :=
  be_bytes 4 (sa s) ++ be_bytes 4 (sb s) ++ be_bytes 4 (sc s) ++ be_bytes 4 (sd s) ++
  be_bytes 4 (se s) ++ be_bytes 4 (sf s) ++ be_bytes 4 (sg s) ++ be_bytes 4 (sh s).

Definition digest (msg : list Z) : list Z :=
  let p := pad msg in
  let ws := words (length p) p in
  state_bytes (fold_left compress (blocks (length ws) ws) H0).

End SHA256.

(** ** HMAC (RFC 2104) with SHA-256, the function behind
    [hmac.new(key, msg, hashlib.sha256)] *)

Definition hmac_sha256 (key msg : list Z) : list Z :=
  let k0 := if (64 <? Z.of_nat (length key))%Z then SHA256.digest key else key in
  let k := (k0 ++ repeat 0 (64 - length k0)%nat)%list in
  let ipad := map (Z.lxor 0x36) k in
  let opad := map (Z.lxor 0x5c) k in
  SHA256.digest (opad ++ SHA256.digest (ipad ++ msg)).

(** [.hexdigest()]: two lowercase hexadecimal digits per byte. *)
Definition hex_digit (n : Z) : ascii :=
  nth (Z.to_nat n) (String.list_ascii_of_string "0123456789abcdef") "0"%char.

Definition hex_of_bytes (bs : list Z) : string :=
  string_of_chars (flat_map (fun b => [hex_digit (b / 16 mod 16); hex_digit (b mod 16)]) bs).

(** [hmac.new(key, msg, hashlib.sha256).hexdigest()] *)
Definition hmac_hexdigest (key msg : bytes) : string :=
  hex_of_bytes (hmac_sha256 (map Z_of_byte key) (map Z_of_byte msg)).

(** ** Python values and exceptions *)

(** A call returns or raises. *)
Inductive outcome (E A : Type) : Type :=
| Returned (a : A)
| Raised (e : E).
Arguments Returned {E A} a.
Arguments Raised {E A} e.

Definition bind {E A B} (m : outcome E A) (k : A -> outcome E B) : outcome E B :=
  match m with
  | Returned a => k a
  | Raised e => Raised e
  end.

Notation "'do' x <- m ; k" := (bind m (fun x => k))
  (at level 10, x name, m at level 100, k at level 200).

(** The builtin exceptions the modelled code can run into. *)
Inductive builtin_exn : Type :=
| ValueError (msg : string)
| TypeError (msg : string)
| AttributeError (msg : string)
| KeyError (key : string)
| UnicodeDecodeError
| JSONDecodeError
| ModelValidationError
| OverflowError.

(** The classes of [httpx] exception the two clients tell apart:
    [TimeoutException] and [NetworkError] are [RequestError]s; so are the
    other transport errors; a few ([InvalidURL], ...) are not. *)
Inductive httpx_exn : Type :=
| TimeoutException (msg : string)
| NetworkError (msg : string)
| OtherRequestError (msg : string)
| NonRequestError (msg : string).

Definition httpx_str (e : httpx_exn) : string :=
  match e with
  | TimeoutException m | NetworkError m | OtherRequestError m | NonRequestError m => m
  end.

(** What [json.loads] / [response.json()] produce. *)
#[warnings="-register-all"] Inductive json : Type :=
| JNull
| JBool (b : bool)
| JInt (z : Z)
| JFloat (value : float)
| JStr (s : string)
| JList (l : list json)
| JDict (d : list (string * json)).

(** Python truthiness, as used by [x or y] and [if x]. *)
Definition truthy (v : json) : bool :=
  match v with
  | JNull => false
  | JBool b => b
  | JInt z => negb (z =? 0)
  | JFloat f => negb (PrimFloat.eqb f 0%float)
  | JStr s => negb (String.eqb s "")
  | JList l => match l with [] => false | _ => true end
  | JDict d => match d with [] => false | _ => true end
  end.

Fixpoint assoc {A} (k : string) (d : list (string * A)) : option A :=
  match d with
  | [] => None
  | (k', v) :: d' => if String.eqb k k' then Some v else assoc k d'
  end.

(** [data.get(key, default)]: only a dict has [get]. *)
Definition json_get (data : json) (key : string) (default : json)
  : outcome builtin_exn json :=
  match data with
  | JDict d => Returned (match assoc key d with Some v => v | None => default end)
  | _ => Raised (AttributeError "object has no attribute 'get'")
  end.

(** ** Python string primitives *)

(** The part of the Unicode database [int()] consults for the characters
    outside ASCII: [Py_UNICODE_TODECIMAL], the value of a decimal digit.
    Which characters are decimal digits depends on the Unicode version the
    interpreter was built with, so the table is a parameter. *)
Class UnicodeData : Type := { todecimal : Z -> option Z }.

(** [Py_UNICODE_ISSPACE], the white space of [str.isspace], [str.strip] and
    [str.split], by code point. *)
Definition py_isspace (cp : Z) : bool :=
  (9 <=? cp) && (cp <=? 13) || (28 <=? cp) && (cp <=? 32)
  || (cp =? 0x85) || (cp =? 0xA0) || (cp =? 0x1680)
  || (0x2000 <=? cp) && (cp <=? 0x200A)
  || (cp =? 0x2028) || (cp =? 0x2029) || (cp =? 0x202F) || (cp =? 0x205F)
  || (cp =? 0x3000).

(** [Py_ISSPACE], the white space [PyLong_FromString] skips around a number:
    the six characters of C's [isspace]. *)
Definition is_space (c : ascii) : bool :=
  let n := N_of_ascii c in
  ((9 <=? n) && (n <=? 13) || (n =? 32))%N.

(** A continuation byte of UTF-8. *)
Definition is_cont (b : Z) : bool := (128 <=? b) && (b <=? 191).

(** The first code point of a UTF-8 byte sequence and the bytes after it
    (RFC 3629: no overlong forms, no surrogates, nothing above U+10FFFF). *)
Definition next_codepoint (bs : list Z) : option (Z * list Z) :=
  match bs with
  | [] => None
  | b0 :: r0 =>
      if b0 <? 128 then Some (b0, r0)
      else if (194 <=? b0) && (b0 <=? 223) then
        match r0 with
        | b1 :: r1 =>
            if is_cont b1 then Some ((b0 - 192) * 64 + (b1 - 128), r1) else None
        | _ => None
        end
      else if (224 <=? b0) && (b0 <=? 239) then
        match r0 with
        | b1 :: b2 :: r2 =>
            if is_cont b1 && is_cont b2
               && (if b0 =? 224 then 160 <=? b1 else true)
               && (if b0 =? 237 then b1 <=? 159 else true)
            then Some ((b0 - 224) * 4096 + (b1 - 128) * 64 + (b2 - 128), r2)
            else None
        | _ => None
        end
      else if (240 <=? b0) && (b0 <=? 244) then
        match r0 with
        | b1 :: b2 :: b3 :: r3 =>
            if is_cont b1 && is_cont b2 && is_cont b3
               && (if b0 =? 240 then 144 <=? b1 else true)
               && (if b0 =? 244 then b1 <=? 143 else true)
            then Some ((b0 - 240) * 262144 + (b1 - 128) * 4096
                       + (b2 - 128) * 64 + (b3 - 128), r3)
            else None
        | _ => None
        end
      else None
  end.

(** What [_PyUnicode_TransformDecimalAndSpaceToASCII] makes of one character:
    ASCII stays, white space becomes a space, a decimal digit its ASCII
    digit; anything else makes the literal invalid. *)
Definition to_ascii_char `{UnicodeData} (cp : Z) : option ascii :=
  if cp <? 128 then Some (ascii_of_N (Z.to_N cp))
  else if py_isspace cp then Some " "%char
  else match todecimal cp with
       | Some d => if (0 <=? d) && (d <=? 9) then Some (ascii_of_N (Z.to_N (48 + d)))
                   else None
       | None => None
       end.

Fixpoint transform_go `{UnicodeData} (fuel : nat) (bs : list Z) : option string :=
  match bs with
  | [] => Some EmptyString
  | _ =>
      match fuel with
      | O => None
      | S fuel' =>
          match next_codepoint bs with
          | None => None
          | Some (cp, rest) =>
              match to_ascii_char cp with
              | None => None
              | Some c => option_map (String c) (transform_go fuel' rest)
              end
          end
      end
  end.

(** The bytes of a string, as numbers. *)
Definition byte_values (s : string) : list Z :=
  map (fun c => Z.of_N (N_of_ascii c)) (String.list_ascii_of_string s).

(** The ASCII text [int()] parses for a [str]. *)
Definition transform `{UnicodeData} (s : string) : option string :=
  transform_go (String.length s) (byte_values s).

Definition is_digit (c : ascii) : bool :=
  let n := N_of_ascii c in ((48 <=? n) && (n <=? 57))%N.

(** The white space [PyLong_FromString] skips before and after the number. *)
Fixpoint lstrip (s : string) : string :=
  match s with
  | EmptyString => EmptyString
  | String c s' => if is_space c then lstrip s' else s
  end.

Fixpoint rstrip (s : string) : string :=
  match s with
  | EmptyString => EmptyString
  | String c s' =>
      match rstrip s' with
      | EmptyString => if is_space c then EmptyString else String c EmptyString
      | r => String c r
      end
  end.

(** Digits with single underscores between them; [prev] tells whether the
    previous character was a digit. *)
Fixpoint strip_underscores (prev : bool) (s : string) : option string :=
  match s with
  | EmptyString => if prev then Some EmptyString else None
  | String c s' =>
      if is_digit c then option_map (String c) (strip_underscores true s')
      else if Ascii.eqb c "_" then
             (if prev then strip_underscores false s' else None)
      else None
  end.

(** An optional sign in front of the digits. *)
Definition split_sign (s : string) : bool * string :=
  match s with
  | String c r =>
      if Ascii.eqb c "-" then (true, r)
      else if Ascii.eqb c "+" then (false, r)
      else (false, s)
  | EmptyString => (false, s)
  end.

Definition digits_value (neg : bool) (s : string) : option Z :=
  match strip_underscores false s with
  | None => None
  | Some ds =>
      match NilEmpty.uint_of_string ds with
      | None => None
      | Some u => Some (if neg then - Z.of_uint u else Z.of_uint u)
      end
  end.

(** [PyLong_FromString] in base 10: white space around, an optional sign,
    decimal digits with single underscores between them. *)
Definition int_of_ascii (s : string) : option Z :=
  let '(neg, s2) := split_sign (rstrip (lstrip s)) in
  digits_value neg s2.

(** [int(s)] for a [str]: [None] is [ValueError].  Unicode white space counts
    as a space and Unicode decimal digits as digits.  The limit on the number
    of digits that recent interpreters can be configured with
    ([sys.set_int_max_str_digits]) is taken to be off. *)
Definition py_int `{UnicodeData} (s : string) : option Z :=
  match transform s with
  | Some a => int_of_ascii a
  | None => None
  end.

(** [str(n)] / [f"{n}"] for an [int]. *)
Definition py_str (z : Z) : string := NilZero.string_of_int (Z.to_int z).

(** [c in s] for a one-character [c]. *)
Fixpoint contains (c : ascii) (s : string) : bool :=
  match s with
  | EmptyString => false
  | String a s' => Ascii.eqb a c || contains c s'
  end.

(** [s.split(c)] for a one-character separator: never an empty list. *)
Fixpoint split (c : ascii) (s : string) : list string :=
  match s with
  | EmptyString => [EmptyString]
  | String a s' =>
      if Ascii.eqb a c then EmptyString :: split c s'
      else match split c s' with
           | [] => [String a EmptyString]
           | p :: ps => String a p :: ps
           end
  end.

(** [s.split(c, 1)] when [c in s]: the text before and after the first [c]. *)
Fixpoint split_once (c : ascii) (s : string) : option (string * string) :=
  match s with
  | EmptyString => None
  | String a s' =>
      if Ascii.eqb a c then Some (EmptyString, s')
      else match split_once c s' with
           | Some (k, v) => Some (String a k, v)
           | None => None
           end
  end.

(** [s.replace(old, "")] for a non-empty [old]: scan left to right, drop each
    occurrence found and resume after it.  [skip] counts the characters of
    the current occurrence still to drop. *)
Fixpoint remove_from (old : string) (skip : nat) (s : string) : string :=
  match s with
  | EmptyString => EmptyString
  | String c s' =>
      match skip with
      | S k => remove_from old k s'
      | O => if String.prefix old s
             then remove_from old (Nat.pred (String.length old)) s'
             else String c (remove_from old O s')
      end
  end.

Definition replace_with_empty (old s : string) : string := remove_from old O s.

Definition is_ascii (s : string) : bool :=
  forallb (fun c => (N_of_ascii c <? 128)%N) (String.list_ascii_of_string s).

(** [hmac.compare_digest(a, b)] on two [str]: both must be ASCII. *)
Definition compare_digest (a b : string) : outcome builtin_exn bool :=
  if is_ascii a && is_ascii b then Returned (String.eqb a b)
  else Raised (TypeError "comparing strings with non-ASCII characters is not supported").

(** ** UTF-8 decoding (RFC 3629): [b.decode("utf-8")] *)

Definition cont (b : N) : bool := ((128 <=? b) && (b <=? 191))%N.

Fixpoint utf8_valid_N (fuel : nat) (bs : list N) : bool :=
  match fuel with
  | O => match bs with [] => true | _ => false end
  | S fuel' =>
      match bs with
      | [] => true
      | b0 :: r0 =>
          if (b0 <? 128)%N then utf8_valid_N fuel' r0
          else if ((194 <=? b0) && (b0 <=? 223))%N then
            match r0 with
            | b1 :: r1 => cont b1 && utf8_valid_N fuel' r1
            | _ => false
            end
          else if ((224 <=? b0) && (b0 <=? 239))%N then
            match r0 with
            | b1 :: b2 :: r2 =>
                cont b1 && cont b2
                && (if (b0 =? 224)%N then (160 <=? b1)%N else true)
                && (if (b0 =? 237)%N then (b1 <=? 159)%N else true)
                && utf8_valid_N fuel' r2
            | _ => false
            end
          else if ((240 <=? b0) && (b0 <=? 244))%N then
            match r0 with
            | b1 :: b2 :: b3 :: r3 =>
                cont b1 && cont b2 && cont b3
                && (if (b0 =? 240)%N then (144 <=? b1)%N else true)
                && (if (b0 =? 244)%N then (b1 <=? 143)%N else true)
                && utf8_valid_N fuel' r3
            | _ => false
            end
          else false
      end
  end.

Definition utf8_valid (b : bytes) : bool :=
  utf8_valid_N (length b) (map Byte.to_N b).

Definition decode (b : bytes) : outcome builtin_exn string :=
  if utf8_valid b then Returned (String.string_of_list_byte b)
  else Raised UnicodeDecodeError.

(** ** The HTTP boundary *)

(** What [self._client.request(...)] is given. *)
Record http_request : Type := HttpRequest {
  rq_method : string;
  rq_url : string;
  rq_json : option json;
  rq_headers : list (string * string)
}.

(** What it answers: [json_body] is the result of [response.json()],
    [None] when that call raises (empty or unparsable body). *)
Record response : Type := Response {
  status_code : Z;
  json_body : option json;
  headers : list (string * string)
}.

(** [response.is_success] *)
Definition is_success (r : response) : bool :=
  (200 <=? status_code r) && (status_code r <=? 299).

Definition lower_ascii (c : ascii) : ascii :=
  let n := N_of_ascii c in
  if ((65 <=? n) && (n <=? 90))%N then ascii_of_N (n + 32) else c.

Fixpoint lower (s : string) : string :=
  match s with
  | EmptyString => EmptyString
  | String c s' => String (lower_ascii c) (lower s')
  end.

Fixpoint join (sep : string) (l : list string) : string :=
  match l with
  | [] => EmptyString
  | [x] => x
  | x :: l' => x +:+ sep +:+ join sep l'
  end.

(** [response.headers.get(name)]: names compare without case, several
    values of one header are joined with a comma. *)
Definition headers_get (hs : list (string * string)) (name : string) : option string :=
  match List.filter (fun kv => String.eqb (lower (fst kv)) (lower name)) hs with
  | [] => None
  | found => Some (join ", " (map snd found))
  end.

(** The remote service: the outcome of the k-th call made to it. *)
Definition server : Type := nat -> http_request -> outcome httpx_exn response.

(** What a client has done so far: the requests it sent and the sleeps it
    took, oldest first. *)
Record world : Type := World {
  sent : list http_request;
  slept : list Z
}.

Definition world0 : world := World [] [].

Definition http_call (srv : server) (rq : http_request) (w : world)
  : outcome httpx_exn response * world :=
  (srv (length (sent w)) rq, World (sent w ++ [rq])%list (slept w)).

(** The longest sleep, in seconds, that fits the 64-bit nanosecond count
    [time.sleep] converts its argument to. *)
Definition SLEEP_MAX : Z := 9223372036.

(** [time.sleep(d)] for an [int]: [OverflowError] when [d] does not convert,
    [ValueError] when it is negative. *)
Definition sleep (d : Z) (w : world) : outcome builtin_exn world :=
  if (d <? - SLEEP_MAX) || (SLEEP_MAX <? d) then Raised OverflowError
  else if d <? 0 then Raised (ValueError "sleep length must be non-negative")
  else Returned (World (sent w) (slept w ++ [d])%list).

(** The payload of a webhook delivery: [Union[str, bytes]]. *)
Inductive payload : Type :=
| Text (s : string)
| Raw (b : bytes).

(** The error kinds of the design, which are not class names: a transport
    failure carries status 0, an authentication failure status 401. *)
Inductive error_kind : Type :=
| KNetworkError | KAuthenticationError | KNotFoundError | KValidationError
| KRateLimitError | KServerError | KAPIError.

Definition kind_of_status (status : Z) : error_kind :=
  if status =? 0 then KNetworkError
  else if status =? 401 then KAuthenticationError
  else if status =? 404 then KNotFoundError
  else if status =? 400 then KValidationError
  else if status =? 429 then KRateLimitError
  else if status >=? 500 then KServerError
  else KAPIError.

(** ** packages/sdk-python *)

Module Packages.

(** [models.MailatError(message, status, code)] and what else can escape. *)
Inductive exn : Type :=
| Builtin (e : builtin_exn)
| Httpx (e : httpx_exn)
| MailatError (message : json) (status : Z) (code : json).

Definition lift {A} (m : outcome builtin_exn A) : outcome exn A :=
  match m with
  | Returned a => Returned a
  | Raised e => Raised (Builtin e)
  end.

Definition kind (e : exn) : option error_kind :=
  match e with
  | MailatError _ status _ => Some (kind_of_status status)
  | _ => None
  end.

(** [dict(p.split("=", 1) for p in signature.split(",") if "=" in p)]:
    a later pair with the same key replaces an earlier one. *)
Definition parse_signature (signature : string) : gmap string string :=
  foldl (fun m kv => <[fst kv := snd kv]> m) ∅
        (omap (split_once "=") (List.filter (contains "=") (split "," signature))).

(** [not x] for an [Optional[str]]. *)
Definition falsy (x : option string) : bool :=
  match x with
  | None => true
  | Some s => String.eqb s ""
  end.

Definition payload_text (p : payload) : outcome builtin_exn string :=
  match p with
  | Text s => Returned s
  | Raw b => decode b
  end.

(** [Mailat.verify_webhook_signature]; [now] is what [int(time.time())]
    reads during the call. *)
Definition verify_webhook_signature `{UnicodeData} (now : Z)
    (payload : payload) (signature secret : string) (tolerance : Z)
  : outcome builtin_exn bool :=
  do payload <- payload_text payload;
  let parts := parse_signature signature in
  let timestamp_str := parts !! "t" in
  let v1_sig := parts !! "v1" in
  if falsy timestamp_str || falsy v1_sig then Returned false
  else
    match py_int (default "" timestamp_str) with
    | None => Returned false
    | Some timestamp =>
        if Z.abs (now - timestamp) >? tolerance then Returned false
        else
          let signed_payload := py_str timestamp +:+ "." +:+ payload in
          let expected_sig := hmac_hexdigest (encode secret) (encode signed_payload) in
          compare_digest (default "" v1_sig) expected_sig
    end.

(** [Mailat._request]: one call, no retry. *)
Definition _request (srv : server) (method path : string) (base_url : string)
    (data : option json) (hdrs : list (string * string)) (w : world)
  : outcome exn json * world :=
  let url := base_url +:+ path in
  let '(r, w1) := http_call srv (HttpRequest method url data hdrs) w in
  (match r with
   | Returned response =>
       match json_body response with
       | None => Raised (Builtin JSONDecodeError)
       | Some result =>
           if negb (is_success response) then
             do message <- lift (json_get result "message" (JStr "Request failed"));
             do code <- lift (json_get result "code" JNull);
             Raised (MailatError message (status_code response) code)
           else Returned result
       end
   | Raised (TimeoutException _) => Raised (MailatError (JStr "Request timeout") 408 JNull)
   | Raised (NetworkError m) | Raised (OtherRequestError m) =>
       Raised (MailatError (JStr m) 0 JNull)
   | Raised (NonRequestError m) => Raised (Httpx (NonRequestError m))
   end, w1).

(** [response["data"]] *)
Definition json_item (v : json) (key : string) : outcome builtin_exn json :=
  match v with
  | JDict d => match assoc key d with
               | Some x => Returned x
               | None => Raised (KeyError key)
               end
  | _ => Raised (TypeError "indices must be integers")
  end.

Section Models.

Context {U : UnicodeData}.

(** The pydantic models are taken as given: how a request item is dumped,
    how a response model is validated, and [json.loads]. *)
Variable SendEmailRequest : Type.
Variable model_dump : SendEmailRequest -> json.
Variable Model : Type.
Variable model_validate : json -> outcome builtin_exn Model.
Variable json_loads : string -> option json.

(** [Emails.send_batch] *)
Definition send_batch (srv : server) (base_url : string)
    (emails : list SendEmailRequest) (w : world)
  : outcome exn Model * world :=
  if (100 <? length emails)%nat
  then (Raised (Builtin (ValueError "Batch size cannot exceed 100 emails")), w)
  else
    let data := JDict [("emails", JList (map model_dump emails))] in
    let '(r, w1) := _request srv "POST" "/emails/batch" base_url (Some data) [] w in
    (do response <- r;
     do d <- lift (json_item response "data");
     lift (model_validate d), w1).

(** The library calls [parse_webhook_payload] makes, in order. *)
Inductive event : Type :=
| JsonLoads (text : string).

(** [Mailat.parse_webhook_payload]; the tolerance is the default, 300. *)
Definition parse_webhook_payload (now : Z)
    (payload : payload) (signature secret : string)
  : outcome exn Model * list event :=
  match verify_webhook_signature now payload signature secret 300 with
  | Raised e => (Raised (Builtin e), [])
  | Returned false => (Raised (MailatError (JStr "Invalid webhook signature") 401 JNull), [])
  | Returned true =>
      match payload_text payload with
      | Raised e => (Raised (Builtin e), [])
      | Returned text =>
          (match json_loads text with
           | None => Raised (Builtin JSONDecodeError)
           | Some data => lift (model_validate data)
           end, [JsonLoads text])
      end
  end.

End Models.

End Packages.

(** ** sdks/python *)

Module Sdks.

(** [exceptions.py]: [MailatError] and its subclasses, each with the status
    code its constructor fixes. *)
Inductive exn : Type :=
| Builtin (e : builtin_exn)
| Httpx (e : httpx_exn)
| MailatError (message : json) (status : Z) (resp : option json)
| AuthenticationError (message : json)
| RateLimitError (message : json) (retry_after : option Z)
| ValidationError (message : json) (errors : json)
| NotFoundError (message : json)
| ServerError (message : json).

Definition exn_status_code (e : exn) : option Z :=
  match e with
  | Builtin _ | Httpx _ => None
  | MailatError _ status _ => Some status
  | AuthenticationError _ => Some 401
  | RateLimitError _ _ => Some 429
  | ValidationError _ _ => Some 400
  | NotFoundError _ => Some 404
  | ServerError _ => Some 500
  end.

Definition lift {A} (m : outcome builtin_exn A) : outcome exn A :=
  match m with
  | Returned a => Returned a
  | Raised e => Raised (Builtin e)
  end.

Definition kind (e : exn) : option error_kind :=
  option_map kind_of_status (exn_status_code e).

(** The client's configuration ([__init__] stores it). *)
Record client : Type := Client {
  base_url : string;
  max_retries : Z
}.

Definition DEFAULT_BASE_URL : string := "https://api.mailat.co/api/v1".
Definition DEFAULT_MAX_RETRIES : Z := 3.

(** [Mailat._handle_error]: it raises on every path. *)
Definition _handle_error `{UnicodeData} (status : Z) (data : json) (r : response)
  : outcome exn unit :=
  do message <- lift (json_get data "message" (JStr "Unknown error"));
  if status =? 401 then Raised (AuthenticationError message)
  else if status =? 404 then Raised (NotFoundError message)
  else if status =? 429 then
    let retry_after := headers_get (headers r) "Retry-After" in
    match retry_after with
    | Some s =>
        if String.eqb s "" then Raised (RateLimitError message None)
        else match py_int s with
             | Some n => Raised (RateLimitError message (Some n))
             | None => Raised (Builtin (ValueError "invalid literal for int() with base 10"))
             end
    | None => Raised (RateLimitError message None)
    end
  else if status =? 400 then
    do errors <- lift (json_get data "errors" JNull);
    Raised (ValidationError message (if truthy errors then errors else JDict []))
  else if status >=? 500 then Raised (ServerError message)
  else Raised (MailatError message status (Some data)).

(** The body of the [try] in [Mailat.request], given what the transport did. *)
Definition attempt_body `{UnicodeData} (r : outcome httpx_exn response)
  : outcome exn json :=
  match r with
  | Raised h => Raised (Httpx h)
  | Returned response =>
      let data := match json_body response with
                  | Some j => j
                  | None => JDict []
                  end in
      do _ <- (if negb (is_success response)
               then _handle_error (status_code response) data response
               else Returned tt);
      lift (json_get data "data" data)
  end.

Section Request.

Context {U : UnicodeData}.
Variable srv : server.
Variable self : client.
Variable rq : http_request.

(** The [for attempt in range(self.max_retries + 1)] loop of
    [Mailat.request], with [n] iterations to go, and the two statements after
    it. *)
Fixpoint request_loop (n : nat) (attempt : Z) (last_error : option exn) (w : world)
  : outcome exn json * world :=
  match n with
  | O =>
      (match last_error with
       | Some e => Raised e
       | None => Raised (MailatError (JStr "Unknown error occurred") 500 None)
       end, w)
  | S n' =>
      let '(r, w1) := http_call srv rq w in
      match attempt_body r with
      | Returned v => (Returned v, w1)
      | Raised (Httpx (TimeoutException m as h)) | Raised (Httpx (NetworkError m as h)) =>
          if attempt <? max_retries self then
            match sleep (2 ^ attempt) w1 with
            | Returned w2 => request_loop n' (attempt + 1) (Some (Httpx h)) w2
            | Raised e => (Raised (Builtin e), w1)
            end
          else (Raised (MailatError (JStr ("Network error: " +:+ httpx_str h)) 0 None), w1)
      | Raised (RateLimitError message ra as e) =>
          if attempt <? max_retries self then
            let retry_after :=
              match ra with
              | Some x => if x =? 0 then 2 ^ attempt else x
              | None => 2 ^ attempt
              end in
            match sleep retry_after w1 with
            | Returned w2 => request_loop n' (attempt + 1) (Some e) w2
            | Raised e' => (Raised (Builtin e'), w1)
            end
          else (Raised e, w1)
      | Raised e => (Raised e, w1)
      end
  end.

End Request.

(** [endpoint.startswith("http")] *)
Definition is_absolute (endpoint : string) : bool := String.prefix "http" endpoint.

(** The request [Mailat.request] sends on every attempt. *)
Definition build_request (self : client) (method endpoint : string)
    (body : option json) : http_request :=
  let url := if is_absolute endpoint then endpoint else base_url self +:+ endpoint in
  HttpRequest method url body [].

(** [Mailat.request] *)
Definition request `{UnicodeData} (srv : server) (self : client) (method endpoint : string)
    (body : option json) (w : world) : outcome exn json * world :=
  request_loop srv self (build_request self method endpoint body)
               (Z.to_nat (max_retries self + 1)) 0 None w.

(** [Mailat.post] *)
Definition post `{UnicodeData} (srv : server) (self : client) (endpoint : string)
    (body : option json) (w : world) : outcome exn json * world :=
  request srv self "POST" endpoint body w.

(** *** [resources/emails.py] *)

(** [str | EmailAddress] and [str | list[str] | EmailAddress | list[EmailAddress]] *)
Inductive address : Type :=
| AddrStr (s : string)
| AddrModel (email : string) (name : option string).

Inductive addresses : Type :=
| One (a : address)
| Many (l : list address).

(** [SendEmailOptions], the fields [send_batch] reads. *)
Record SendEmailOptions : Type := {
  to : addresses;
  subject : string;
  html : option string;
  text : option string;
  cc : option addresses;
  bcc : option addresses;
  template_id : option string;
  template_data : option (list (string * json));
  tags : option (list string);
  metadata : option (list (string * json))
}.

(** [EmailsResource._normalize_address]; an [EmailAddress] is dumped with
    [exclude_none=True]. *)
Definition _normalize_address (a : address) : json :=
  match a with
  | AddrStr s => JDict [("email", JStr s)]
  | AddrModel e None => JDict [("email", JStr e)]
  | AddrModel e (Some n) => JDict [("email", JStr e); ("name", JStr n)]
  end.

(** [EmailsResource._normalize_addresses] *)
Definition _normalize_addresses (x : addresses) : json :=
  match x with
  | One a => JList [_normalize_address a]
  | Many l => JList (map _normalize_address l)
  end.

Definition truthy_str (x : option string) : bool :=
  match x with
  | Some s => negb (String.eqb s "")
  | None => false
  end.

Definition truthy_addresses (x : option addresses) : bool :=
  match x with
  | Some (One (AddrStr s)) => negb (String.eqb s "")
  | Some (One (AddrModel _ _)) => true
  | Some (Many l) => match l with [] => false | _ => true end
  | None => false
  end.

Definition truthy_list {A} (x : option (list A)) : bool :=
  match x with
  | Some (_ :: _) => true
  | _ => false
  end.

Definition when (b : bool) (kv : string * json) : list (string * json) :=
  if b then [kv] else [].

(** [EmailsResource._build_payload] as [send_batch] calls it: the
    parameters it does not pass keep their default [None], so their
    branches add no key. *)
Definition _build_payload (e : SendEmailOptions) : json :=
  JDict ([("to", _normalize_addresses (to e)); ("subject", JStr (subject e))]
         ++ when (truthy_str (html e)) ("htmlBody", JStr (default "" (html e)))
         ++ when (truthy_str (text e)) ("textBody", JStr (default "" (text e)))
         ++ when (truthy_addresses (cc e))
                 ("cc", _normalize_addresses (default (Many []) (cc e)))
         ++ when (truthy_addresses (bcc e))
                 ("bcc", _normalize_addresses (default (Many []) (bcc e)))
         ++ when (truthy_str (template_id e)) ("templateId", JStr (default "" (template_id e)))
         ++ when (truthy_list (template_data e)) ("variables", JDict (default [] (template_data e)))
         ++ when (truthy_list (tags e)) ("tags", JList (map JStr (default [] (tags e))))
         ++ when (truthy_list (metadata e)) ("metadata", JDict (default [] (metadata e))))%list.

(** [EmailsResource.send_batch] *)
Definition send_batch `{UnicodeData} (srv : server) (self : client)
    (emails : list SendEmailOptions) (w : world) : outcome exn json * world :=
  let payloads := map _build_payload emails in
  post srv self "/emails/batch" (Some (JDict [("emails", JList payloads)])) w.

(** [if isinstance(payload, str): payload = payload.encode()] *)
Definition payload_bytes (p : payload) : bytes :=
  match p with
  | Text s => encode s
  | Raw b => b
  end.

(** [WebhooksResource.verify_signature] *)
Definition verify_signature (payload : payload) (signature secret : string)
  : outcome builtin_exn bool :=
  let payload := payload_bytes payload in
  let expected := hmac_hexdigest (encode secret) payload in
  let provided := replace_with_empty "sha256=" signature in
  compare_digest expected provided.

(** [s.rstrip("/")] *)
Fixpoint rstrip_slash (s : string) : string :=
  match s with
  | EmptyString => EmptyString
  | String c s' =>
      match rstrip_slash s' with
      | EmptyString => if Ascii.eqb c "/" then EmptyString else String c EmptyString
      | r => String c r
      end
  end.

(** [Mailat.__init__], as far as the configuration [request] reads goes (the
    timeout and the headers go to the [httpx] client). *)
Definition __init__ (api_key base_url : string) (max_retries : Z)
  : outcome builtin_exn client :=
  if String.eqb api_key "" then Raised (ValueError "API key is required")
  else Returned (Client (rstrip_slash base_url) max_retries).

(** [Mailat.put] and [Mailat.delete] *)
Definition put `{UnicodeData} (srv : server) (self : client) (endpoint : string)
    (body : option json) (w : world) : outcome exn json * world :=
  request srv self "PUT" endpoint body w.

Definition delete `{UnicodeData} (srv : server) (self : client) (endpoint : string)
    (w : world)
  : outcome exn json * world :=
  request srv self "DELETE" endpoint None w.

End Sdks.

(** ** Predicates on strings used in the statements *)

Fixpoint all_chars (P : ascii -> bool) (s : string) : bool :=
  match s with
  | EmptyString => true
  | String c s' => P c && all_chars P s'
  end.

Definition is_hex_char (c : ascii) : bool := contains c "0123456789abcdef".

Definition is_int_char (c : ascii) : bool := is_digit c || Ascii.eqb c "-".

(** The header of the timestamped scheme as the service builds it (the SDK
    only verifies): [t=<now>,v1=<hex HMAC-SHA256 of "<now>.<text>">]. *)
Definition sign (now : Z) (text secret : string) : string :=
  "t=" +:+ py_str now +:+ ",v1="
  +:+ hmac_hexdigest (encode secret) (encode (py_str now +:+ "." +:+ text)).

(** A transient transport failure: what [except (httpx.TimeoutException,
    httpx.NetworkError)] catches. *)
Definition transient (o : outcome httpx_exn response) : bool :=
  match o with
  | Raised (TimeoutException _) | Raised (NetworkError _) => true
  | _ => false
  end.

(** The parsed body a response stands for in [Mailat.request]: an unparsable
    or empty body counts as the empty object. *)
Definition parsed_body (r : response) : json :=
  match json_body r with
  | Some j => j
  | None => JDict []
  end.

Definition is_object (v : json) : bool :=
  match v with
  | JDict _ => true
  | _ => false
  end.

(** The [data] field of an object when present, the object otherwise. *)
Definition unwrap_data (v : json) : json :=
  match v with
  | JDict d => match assoc "data" d with Some x => x | None => v end
  | _ => v
  end.

(** The [message] field of an error body, with the default of
    [_handle_error]. *)
Definition error_message (v : json) : json :=
  match v with
  | JDict d => match assoc "message" d with Some x => x | None => JStr "Unknown error" end
  | _ => JStr "Unknown error"
  end.

(** The world after one more request [rq] and the sleeps [ds]. *)
Definition after (w : world) (rqs : list http_request) (ds : list Z) : world :=
  World (sent w ++ rqs)%list (slept w ++ ds)%list.

(** The exceptions the two [except] clauses of [Mailat.request] catch. *)
Definition caught (e : Sdks.exn) : bool :=
  match e with
  | Sdks.Httpx (TimeoutException _) | Sdks.Httpx (NetworkError _)
  | Sdks.RateLimitError _ _ => true
  | _ => false
  end.

(** A service that times out on its first [failures] calls and then answers
    [r]; one that always answers [r]; one that never answers. *)
Definition flaky_server (failures : nat) (r : response) : server :=
  fun k _ => if (k <? failures)%nat then Raised (TimeoutException "timed out")
             else Returned r.

Definition constant_server (r : response) : server := fun _ _ => Returned r.

Definition dead_server : server := fun _ _ => Raised (NetworkError "connection refused").

(** A service that answers [first] to the first call and [r] afterwards. *)
Definition server_after (first r : response) : server :=
  fun k _ => match k with O => Returned first | S _ => Returned r end.

(** The service [srv] with the answer to call number [i] replaced by [r]. *)
Definition answer_at (srv : server) (i : nat) (r : response) : server :=
  fun k rq => if (k =? i)%nat then Returned r else srv k rq.

(** The response [r] with its body replaced by the empty JSON object. *)
Definition with_empty_object (r : response) : response :=
  Response (status_code r) (Some (JDict [])) (headers r).

Definition default_client : Sdks.client :=
  Sdks.Client Sdks.DEFAULT_BASE_URL Sdks.DEFAULT_MAX_RETRIES.

(** ** packages/sdk-python: [Emails.send] *)

Module Emails.

(** The arguments of [Emails.send]. *)
Record send_args : Type := {
  from_address : string;
  to : list string;
  subject : string;
  html : option string;
  text : option string;
  cc : option (list string);
  bcc : option (list string);
  reply_to : option string;
  template_id : option string;
  variables : option (list (string * string));
  tags : option (list string);
  metadata : option (list (string * string));
  scheduled_for : option string;
  idempotency_key : option string
}.

Definition strs (l : list string) : json := JList (map JStr l).

Definition str_dict (d : list (string * string)) : json :=
  JDict (map (fun kv => (fst kv, JStr (snd kv))) d).

(** The [data] dict [send] builds, in insertion order. *)
Definition send_data (a : send_args) : list (string * json) :=
  ([("from", JStr (from_address a)); ("to", strs (to a)); ("subject", JStr (subject a))]
   ++ Sdks.when (Sdks.truthy_str (html a)) ("html", JStr (default "" (html a)))
   ++ Sdks.when (Sdks.truthy_str (text a)) ("text", JStr (default "" (text a)))
   ++ Sdks.when (Sdks.truthy_list (cc a)) ("cc", strs (default [] (cc a)))
   ++ Sdks.when (Sdks.truthy_list (bcc a)) ("bcc", strs (default [] (bcc a)))
   ++ Sdks.when (Sdks.truthy_str (reply_to a)) ("replyTo", JStr (default "" (reply_to a)))
   ++ Sdks.when (Sdks.truthy_str (template_id a))
        ("templateId", JStr (default "" (template_id a)))
   ++ Sdks.when (Sdks.truthy_list (variables a))
        ("variables", str_dict (default [] (variables a)))
   ++ Sdks.when (Sdks.truthy_list (tags a)) ("tags", strs (default [] (tags a)))
   ++ Sdks.when (Sdks.truthy_list (metadata a))
        ("metadata", str_dict (default [] (metadata a)))
   ++ Sdks.when (Sdks.truthy_str (scheduled_for a))
        ("scheduledFor", JStr (default "" (scheduled_for a))))%list.

(** The [headers] dict [send] builds. *)
Definition send_headers (a : send_args) : list (string * string) :=
  if Sdks.truthy_str (idempotency_key a)
  then [("Idempotency-Key", default "" (idempotency_key a))]
  else [].

Section Send.

Variable Model : Type.
Variable model_validate : json -> outcome builtin_exn Model.

(** [Emails.send] *)
Definition send (srv : server) (base_url : string) (a : send_args) (w : world)
  : outcome Packages.exn Model * world :=
  let '(r, w1) := Packages._request srv "POST" "/emails" base_url
                    (Some (JDict (send_data a))) (send_headers a) w in
  (do response <- r;
   do d <- Packages.lift (Packages.json_item response "data");
   Packages.lift (model_validate d), w1).

End Send.

End Emails.

(** ** sdks/python: [TemplatesResource.extract_variables] *)

Module Templates.

(** The function looks at characters, so here a [str] is the list of its code
    points. *)
Abbreviation ustr := (list Z).

(** The code points of an ASCII literal. *)
Definition of_ascii (s : string) : ustr := byte_values s.

(** [[][0]] *)
Inductive index_error : Type := IndexError.

Definition OPEN : Z := 123.
Definition CLOSE : Z := 125.

(** The longest prefix without a closing brace, and what follows it. *)
Fixpoint span_not_close (s : ustr) : ustr * ustr :=
  match s with
  | [] => ([], [])
  | c :: s' =>
      if c =? CLOSE then ([], s)
      else let '(run, rest) := span_not_close s' in (c :: run, rest)
  end.

(** A match of [\{\{([^}]+)\}\}] at the start of [s]: its group and its
    length.  The class is greedy and excludes the closing brace, so only the
    longest run can be followed by the two braces. *)
Definition match_here (s : ustr) : option (ustr * nat) :=
  match s with
  | o1 :: o2 :: t =>
      if (o1 =? OPEN) && (o2 =? OPEN) then
        match span_not_close t with
        | (c :: run, c1 :: c2 :: _) =>
            if (c1 =? CLOSE) && (c2 =? CLOSE)
            then Some (c :: run, (4 + length (c :: run))%nat)
            else None
        | _ => None
        end
      else None
  | _ => None
  end.

(** [re.findall(pattern, content)]: leftmost matches that do not overlap;
    [skip] counts the characters of the current match still to pass. *)
Fixpoint findall (skip : nat) (s : ustr) : list ustr :=
  match s with
  | [] => []
  | c :: s' =>
      match skip with
      | S k => findall k s'
      | O =>
          match match_here s with
          | Some (group, len) => group :: findall (Nat.pred len) s'
          | None => findall O s'
          end
      end
  end.

(** [s.lstrip()] and [s.rstrip()] *)
Fixpoint lstrip (s : ustr) : ustr :=
  match s with
  | [] => []
  | c :: s' => if py_isspace c then lstrip s' else s
  end.

Fixpoint rstrip (s : ustr) : ustr :=
  match s with
  | [] => []
  | c :: s' =>
      match rstrip s' with
      | [] => if py_isspace c then [] else [c]
      | r => c :: r
      end
  end.

(** [c in chars] *)
Definition member (c : Z) (chars : ustr) : bool := existsb (Z.eqb c) chars.

(** [s.lstrip(chars)] *)
Fixpoint lstrip_chars (chars s : ustr) : ustr :=
  match s with
  | [] => []
  | c :: s' => if member c chars then lstrip_chars chars s' else s
  end.

(** [s.split()]: the maximal runs of characters that are not white space. *)
Fixpoint words (s : ustr) : list ustr :=
  match s with
  | [] => []
  | c :: s' =>
      if py_isspace c then words s'
      else match s' with
           | [] => [[c]]
           | c' :: _ =>
               if py_isspace c' then [c] :: words s'
               else match words s' with
                    | w :: ws => (c :: w) :: ws
                    | [] => [[c]]
                    end
           end
  end.

(** The marks [lstrip("#/^")] removes. *)
Definition MARKS : ustr := [35; 47; 94].

(** [match.strip().lstrip("#/^").split()[0]] *)
Definition clean (m : ustr) : outcome index_error ustr :=
  match words (lstrip_chars MARKS (rstrip (lstrip m))) with
  | [] => Raised IndexError
  | var :: _ => Returned var
  end.

(** [var.startswith("!")] *)
Definition starts_with_bang (var : ustr) : bool :=
  match var with
  | c :: _ => c =? 33
  | [] => false
  end.

(** [if var and not var.startswith("!")] *)
Definition keep (var : ustr) : bool :=
  match var with
  | [] => false
  | _ => negb (starts_with_bang var)
  end.

(** The loop over the matches, adding to the set [variables]. *)
Fixpoint collect (matches : list ustr) (variables : gset ustr)
  : outcome index_error (gset ustr) :=
  match matches with
  | [] => Returned variables
  | m :: matches' =>
      do var <- clean m;
      collect matches' (if keep var then {[ var ]} ∪ variables else variables)
  end.

(** [TemplatesResource.extract_variables]; the list it returns is the set in
    an order Python does not fix, so the set stands for it. *)
Definition extract_variables (content : ustr) : outcome index_error (gset ustr) :=
  collect (findall O content) ∅.

End Templates.

(** An address as the API takes it: an object with [email] first and, at
    most, a [name] that is a string. *)
Definition is_address_object (j : json) : Prop :=
  exists em, j = JDict [("email", JStr em)]
             \/ exists n, j = JDict [("email", JStr em); ("name", JStr n)].

(** The number of addresses a recipient argument stands for. *)
Definition address_count (x : Sdks.addresses) : nat :=
  match x with
  | Sdks.One _ => 1
  | Sdks.Many l => length l
  end.

(** [n] slashes. *)
Fixpoint slashes (n : nat) : string :=
  match n with
  | O => EmptyString
  | S n' => String "/" (slashes n')
  end.

(** [s.endswith(c)] for a one-character [c]. *)
Fixpoint ends_with (c : ascii) (s : string) : bool :=
  match s with
  | EmptyString => false
  | String a EmptyString => Ascii.eqb a c
  | String _ s' => ends_with c s'
  end.

Definition not_space (c : Z) : bool := negb (py_isspace c).

(** A proper variable name as [extract_variables] yields them. *)
Definition is_word (w : Templates.ustr) : Prop := w <> [] /\ forallb not_space w = true.

(** The characters of [w] all occur in [s]. *)
Definition chars_in (w s : Templates.ustr) : Prop := forall c, In c w -> In c s.

(** The keys of a dict, in order. *)
Definition keys (d : list (string * json)) : list string := map fst d.

(** The exponential backoff: [2^0; 2^1; ...; 2^(n-1)]. *)
Definition backoff_sleeps (n : nat) : list Z :=
  map (fun i => 2 ^ Z.of_nat i) (seq 0 n).

(** The status code the raised exception carries for a response status:
    [ServerError] fixes 500. *)
Definition reported_status (status : Z) : Z :=
  if status >=? 500 then 500 else status.

(** A [str] the representation covers: its bytes are UTF-8, so [encode]
    accepts it (no lone surrogate). *)
Definition encodable (s : string) : bool := utf8_valid (encode s).

(** The signature with every occurrence of ["sha256="] removed, read from left
    to right: where the next seven characters are [sha256=] they are dropped,
    any other character is kept. *)
Fixpoint without_sha256_marks (s : string) : string :=
  match s with
  | String "s" (String "h" (String "a" (String "2" (String "5"
      (String "6" (String "=" rest)))))) => without_sha256_marks rest
  | String c tl => String c (without_sha256_marks tl)
  | EmptyString => EmptyString
  end.

(** A fragment of the decimal digit table, to run the code on examples:
    the Arabic-Indic, Devanagari and fullwidth digits.  The properties below
    hold for every table. *)
Definition digit_in (zero cp : Z) : option Z :=
  if (zero <=? cp) && (cp <=? zero + 9) then Some (cp - zero) else None.

#[global] Instance unicode_fragment : UnicodeData :=
  {| todecimal := fun cp =>
       match digit_in 0x660 cp, digit_in 0x966 cp, digit_in 0xFF10 cp with
       | Some d, _, _ | None, Some d, _ | None, None, Some d => Some d
       | None, None, None => None
       end |}.

(** * Properties *)

#[local] Arguments String.append !_ _ / : simpl nomatch.

(** ** Test vectors and worked examples *)

Example sha256_constants :
  firstn 2 SHA256.K = [0x428a2f98; 0x71374491] /\ length SHA256.K = 64%nat
  /\ SHA256.sa SHA256.H0 = 0x6a09e667 /\ SHA256.sh SHA256.H0 = 0x5be0cd19.
Proof. vm_compute. repeat split; reflexivity. Qed.

Example sha256_abc :
  hex_of_bytes (SHA256.digest (map Z_of_byte (encode "abc")))
  = "ba7816bf8f01cfea414140de5dae2223b00361a396177a9cb410ff61f20015ad".
Proof. vm_compute. reflexivity. Qed.

Example hmac_rfc4231_case2 :
  hmac_hexdigest (encode "Jefe") (encode "what do ya want for nothing?")
  = "5bdcc146bf60754e6a042426089575c75a003f089d2739839dec58b964ec3843".
Proof. vm_compute. reflexivity. Qed.

Example py_int_examples :
  map py_int [ "42"; " -7 "; "+1_000"; "007"; ""; "-"; "1__0"; "_1"; "1_"; "+-5"; "12a"; "0x10" ]
  = [ Some 42; Some (-7); Some 1000; Some 7; None; None; None; None; None; None; None; None ].
Proof. vm_compute. reflexivity. Qed.

(** Outside ASCII: the Arabic-Indic digits of 42 are a number, a no-break
    space (U+00A0) around a number is skipped, the ASCII separator U+001C is
    not, and a letter such as [e] with an acute accent is no digit. *)
Example py_int_unicode_examples :
  let bytes_str := fun l => String.string_of_list_ascii (map ascii_of_N l) in
  map py_int [ bytes_str [217; 164; 217; 162]%N;
               bytes_str [194; 160; 55; 194; 160]%N;
               bytes_str [28; 55]%N;
               bytes_str [55; 28]%N;
               bytes_str [195; 169]%N;
               bytes_str [255]%N ]
  = [ Some 42; Some 7; None; None; None; None ].
Proof. vm_compute. reflexivity. Qed.

(** [0.0] and [-0.0] are false, like [0], the empty string and the empty
    containers. *)
Example truthy_examples :
  map truthy [ JNull; JBool false; JInt 0; JFloat 0%float; JFloat (-0)%float; JStr "";
               JList []; JDict [] ]
  = [ false; false; false; false; false; false; false; false ]
  /\ map truthy [ JBool true; JInt (-1); JFloat 0.5%float; JStr "0"; JList [JNull];
                  JDict [("a", JNull)] ]
     = [ true; true; true; true; true; true ].
Proof. vm_compute. split; reflexivity. Qed.

Example split_examples :
  split "," "t=1,v1=ab" = ["t=1"; "v1=ab"] /\ split "," "" = [""] /\
  split "," "a,,b," = ["a"; ""; "b"; ""] /\
  split_once "=" "v1=a=b" = Some ("v1", "a=b") /\
  replace_with_empty "sha256=" "sha256=abcsha256=" = "abc" /\
  replace_with_empty "sha256=" "sha256sha256==" = "sha256=" /\
  py_str (-120) = "-120" /\ py_str 0 = "0".
Proof. vm_compute. repeat split; reflexivity. Qed.

Example decode_examples :
  decode [Byte.x68; Byte.x69] = Returned "hi" /\
  decode [Byte.xc3; Byte.xa9] = Returned (String.string_of_list_byte [Byte.xc3; Byte.xa9]) /\
  decode [Byte.xff] = Raised UnicodeDecodeError /\
  decode [Byte.xc0; Byte.x80] = Raised UnicodeDecodeError /\
  decode [Byte.xed; Byte.xa0; Byte.x80] = Raised UnicodeDecodeError.
Proof. vm_compute. repeat split; reflexivity. Qed.

Example request_examples :
  let rq := Sdks.build_request default_client "GET" "/emails" None in
  let limited := Response 429 (Some (JDict [("message", JStr "Slow down")]))
                   [("retry-after", "5")] in
  let ok := Response 200 (Some (JDict [("data", JInt 7)])) [] in
  Sdks.request (server_after limited ok) default_client "GET" "/emails" None world0
  = (Returned (JInt 7), after world0 [rq; rq] [5])
  /\ Sdks.request (constant_server (Response 204 None [])) default_client "GET" "/emails"
        None world0
     = (Returned (JDict []), after world0 [rq] [])
  /\ Sdks.request (constant_server (Response 503 None [])) default_client "GET" "/emails"
        None world0
     = (Raised (Sdks.ServerError (JStr "Unknown error")), after world0 [rq] [])
  /\ Sdks.request (constant_server ok) (Sdks.Client Sdks.DEFAULT_BASE_URL (-1)) "GET"
        "/emails" None world0
     = (Raised (Sdks.MailatError (JStr "Unknown error occurred") 500 None), world0)
  /\ rq_url rq = "https://api.mailat.co/api/v1/emails".
Proof. vm_compute. repeat split; reflexivity. Qed.

Example prefix_scheme_examples :
  let digest := hmac_hexdigest (encode "Jefe") (encode "what do ya want for nothing?") in
  Sdks.verify_signature (Text "what do ya want for nothing?") ("sha256=" +:+ digest) "Jefe"
  = Returned true
  /\ Sdks.verify_signature (Text "what do ya want for nothing?") digest "Jefe"
     = Returned true
  /\ Sdks.verify_signature (Text "tampered") ("sha256=" +:+ digest) "Jefe" = Returned false.
Proof. vm_compute. repeat split; reflexivity. Qed.

(** ** Hexadecimal digests *)

Lemma hex_digit_is_hex (n : Z) : is_hex_char (hex_digit n) = true.
Proof.
  unfold hex_digit. generalize (Z.to_nat n) as k. intros k.
  do 17 (destruct k as [|k]; [reflexivity|]). destruct k; reflexivity.
Qed.

Lemma hex_of_bytes_hex (bs : list Z) : all_chars is_hex_char (hex_of_bytes bs) = true.
Proof.
  unfold hex_of_bytes. induction bs as [|b bs IH]; [reflexivity|].
  cbn [flat_map app string_of_chars all_chars].
  rewrite !hex_digit_is_hex. exact IH.
Qed.

Lemma digest_nonempty (msg : list Z) : exists b l, SHA256.digest msg = b :: l.
Proof.
  unfold SHA256.digest, SHA256.state_bytes.
  generalize (fold_left SHA256.compress
                (SHA256.blocks (length (SHA256.words (length (SHA256.pad msg)) (SHA256.pad msg)))
                   (SHA256.words (length (SHA256.pad msg)) (SHA256.pad msg))) SHA256.H0).
  intros s. unfold SHA256.be_bytes at 1. cbn [seq rev app map]. eauto.
Qed.

Lemma hmac_hexdigest_hex (key msg : bytes) :
  all_chars is_hex_char (hmac_hexdigest key msg) = true.
Proof. apply hex_of_bytes_hex. Qed.

Lemma hmac_hexdigest_nonempty (key msg : bytes) : hmac_hexdigest key msg <> "".
Proof.
  unfold hmac_hexdigest, hmac_sha256.
  match goal with |- hex_of_bytes (SHA256.digest ?m) <> _ =>
    destruct (digest_nonempty m) as (b & l & ->) end.
  unfold hex_of_bytes. cbn [flat_map app string_of_chars]. discriminate.
Qed.

Lemma all_chars_impl (P Q : ascii -> bool) (s : string) :
  (forall c, P c = true -> Q c = true) ->
  all_chars P s = true -> all_chars Q s = true.
Proof.
  intros HPQ. induction s as [|c s IH]; [reflexivity|].
  cbn [all_chars]. intros [Hc Hs]%andb_prop.
  rewrite (HPQ _ Hc), (IH Hs). reflexivity.
Qed.

Lemma hex_char_ascii (c : ascii) : is_hex_char c = true -> (N_of_ascii c <? 128)%N = true.
Proof.
  destruct c as [[] [] [] [] [] [] [] []]; vm_compute; congruence.
Qed.

Lemma all_chars_not_contains (P : ascii -> bool) (d : ascii) (s : string) :
  P d = false -> all_chars P s = true -> contains d s = false.
Proof.
  intros Hd. induction s as [|c s IH]; [reflexivity|].
  cbn [all_chars contains]. intros [Hc Hs]%andb_prop.
  rewrite (IH Hs), orb_false_r.
  destruct (Ascii.eqb_spec c d) as [->|]; [congruence|reflexivity].
Qed.

Lemma all_chars_is_ascii (s : string) :
  all_chars is_hex_char s = true -> is_ascii s = true.
Proof.
  unfold is_ascii. induction s as [|c s IH]; [reflexivity|].
  cbn [all_chars String.list_ascii_of_string forallb]. intros [Hc Hs]%andb_prop.
  rewrite (hex_char_ascii _ Hc), (IH Hs). reflexivity.
Qed.

(** ** [int] inverts [str] *)

Lemma string_of_uint_digits (d : Decimal.uint) :
  all_chars is_digit (NilEmpty.string_of_uint d) = true.
Proof. induction d; cbn [NilEmpty.string_of_uint all_chars]; auto. Qed.

Lemma string_of_uint_nonempty (d : Decimal.uint) :
  d <> Decimal.Nil -> NilEmpty.string_of_uint d <> "".
Proof. destruct d; intros H; try discriminate. contradiction. Qed.

Lemma digit_not_space (c : ascii) : is_digit c = true -> is_space c = false.
Proof. destruct c as [[] [] [] [] [] [] [] []]; vm_compute; congruence. Qed.

Lemma lstrip_digits (s : string) : all_chars is_digit s = true -> lstrip s = s.
Proof.
  destruct s as [|c s]; [reflexivity|].
  cbn [all_chars lstrip]. intros [Hc _]%andb_prop.
  rewrite (digit_not_space _ Hc). reflexivity.
Qed.

Lemma rstrip_digits (s : string) : all_chars is_digit s = true -> rstrip s = s.
Proof.
  induction s as [|c s IH]; [reflexivity|].
  cbn [all_chars rstrip]. intros [Hc Hs]%andb_prop.
  rewrite (IH Hs), (digit_not_space _ Hc). destruct s; reflexivity.
Qed.

Lemma strip_underscores_digits (s : string) :
  all_chars is_digit s = true -> strip_underscores true s = Some s.
Proof.
  induction s as [|c s IH]; [reflexivity|].
  cbn [all_chars strip_underscores]. intros [Hc Hs]%andb_prop.
  rewrite Hc, (IH Hs). reflexivity.
Qed.

Lemma digit_not_sign (c : ascii) :
  is_digit c = true -> Ascii.eqb c "-" = false /\ Ascii.eqb c "+" = false.
Proof. destruct c as [[] [] [] [] [] [] [] []]; vm_compute; intuition congruence. Qed.

Lemma digits_value_digits (neg : bool) (s : string) :
  all_chars is_digit s = true -> s <> "" ->
  digits_value neg s
  = option_map (fun u => if neg then - Z.of_uint u else Z.of_uint u)
               (NilEmpty.uint_of_string s).
Proof.
  intros Hs Hne. unfold digits_value.
  destruct s as [|c r]; [contradiction|].
  pose proof Hs as Hs'. cbn [all_chars] in Hs'. apply andb_prop in Hs' as [Hc Hr].
  cbn [strip_underscores]. rewrite Hc, (strip_underscores_digits _ Hr).
  cbn [option_map]. destruct (NilEmpty.uint_of_string (String c r)); reflexivity.
Qed.

Lemma int_of_ascii_digits (s : string) :
  all_chars is_digit s = true -> s <> "" ->
  int_of_ascii s = option_map Z.of_uint (NilEmpty.uint_of_string s).
Proof.
  intros Hs Hne. unfold int_of_ascii. rewrite (lstrip_digits _ Hs), (rstrip_digits _ Hs).
  destruct s as [|c r]; [contradiction|].
  pose proof Hs as Hs'. cbn [all_chars] in Hs'. apply andb_prop in Hs' as [Hc Hr].
  unfold split_sign. destruct (digit_not_sign _ Hc) as [-> ->].
  apply (digits_value_digits false); assumption.
Qed.

Lemma int_of_ascii_minus_digits (s : string) :
  all_chars is_digit s = true -> s <> "" ->
  int_of_ascii (String "-" s) = option_map (fun u => - Z.of_uint u) (NilEmpty.uint_of_string s).
Proof.
  intros Hs Hne. unfold int_of_ascii.
  change (lstrip (String "-" s)) with (String "-" s).
  cbn [rstrip]. rewrite (rstrip_digits _ Hs).
  destruct s as [|c r]; [contradiction|].
  change (split_sign (String "-" (String c r))) with (true, String c r).
  apply (digits_value_digits true); assumption.
Qed.

Lemma int_of_ascii_py_str (z : Z) : int_of_ascii (py_str z) = Some z.
Proof.
  unfold py_str. destruct z as [|p|p]; [reflexivity| |].
  - cbn [Z.to_int NilZero.string_of_int].
    pose proof (DecimalPos.Unsigned.to_uint_nonnil p) as Hnn.
    assert (Hs : NilZero.string_of_uint (Pos.to_uint p)
                 = NilEmpty.string_of_uint (Pos.to_uint p)).
    { destruct (Pos.to_uint p); [contradiction|reflexivity..]. }
    rewrite Hs, int_of_ascii_digits, NilEmpty.usu
      by auto using string_of_uint_digits, string_of_uint_nonempty.
    cbn [option_map]. unfold Z.of_uint.
    rewrite DecimalPos.Unsigned.of_to. reflexivity.
  - cbn [Z.to_int NilZero.string_of_int].
    pose proof (DecimalPos.Unsigned.to_uint_nonnil p) as Hnn.
    assert (Hs : NilZero.string_of_uint (Pos.to_uint p)
                 = NilEmpty.string_of_uint (Pos.to_uint p)).
    { destruct (Pos.to_uint p); [contradiction|reflexivity..]. }
    rewrite Hs, int_of_ascii_minus_digits, NilEmpty.usu
      by auto using string_of_uint_digits, string_of_uint_nonempty.
    cbn [option_map]. unfold Z.of_uint.
    rewrite DecimalPos.Unsigned.of_to. reflexivity.
Qed.

(** ** Splitting *)

Lemma split_no_sep (c : ascii) (s : string) :
  contains c s = false -> split c s = [s].
Proof.
  induction s as [|a s IH]; [reflexivity|].
  cbn [contains split]. intros [Ha Hs]%orb_false_elim.
  rewrite Ha, (IH Hs). reflexivity.
Qed.

Lemma split_app (c : ascii) (a b : string) :
  contains c a = false -> split c (a +:+ String c b) = a :: split c b.
Proof.
  induction a as [|x a IH]; simpl.
  - intros _. rewrite Ascii.eqb_refl. reflexivity.
  - intros [Hx Ha]%orb_false_elim. rewrite Hx, (IH Ha). reflexivity.
Qed.

Lemma append_assoc (a b c : string) : (a +:+ b) +:+ c = a +:+ (b +:+ c).
Proof. induction a as [|x a IH]; simpl; [reflexivity|]. rewrite IH. reflexivity. Qed.

Lemma py_str_chars (z : Z) : all_chars is_int_char (py_str z) = true.
Proof.
  assert (Hu : forall d, all_chars is_int_char (NilZero.string_of_uint d) = true).
  { intros d. destruct d; try reflexivity;
      (apply all_chars_impl with (P := is_digit);
       [intros c Hc; unfold is_int_char; rewrite Hc; reflexivity
       |apply (string_of_uint_digits (_ d))]). }
  unfold py_str. destruct z as [|p|p]; [reflexivity|apply Hu|].
  change (is_int_char "-" && all_chars is_int_char (NilZero.string_of_uint (Pos.to_uint p)) = true).
  rewrite Hu. reflexivity.
Qed.

Lemma transform_go_ascii {U : UnicodeData} (s : string) :
  forall fuel,
    (String.length s <= fuel)%nat ->
    all_chars (fun c => (N_of_ascii c <? 128)%N) s = true ->
    transform_go fuel (byte_values s) = Some s.
Proof.
  unfold byte_values.
  induction s as [|c s IH]; intros fuel Hlen Hs; [destruct fuel; reflexivity|].
  cbn [String.length] in Hlen. destruct fuel as [|fuel]; [lia|].
  cbn [all_chars] in Hs. apply andb_prop in Hs as [Hc Hs].
  cbn [String.list_ascii_of_string map transform_go next_codepoint].
  assert (Hb : (Z.of_N (N_of_ascii c) <? 128) = true).
  { apply Z.ltb_lt. apply N.ltb_lt in Hc. lia. }
  rewrite Hb. unfold to_ascii_char. rewrite Hb, N2Z.id, ascii_N_embedding.
  rewrite IH by (assumption || lia). reflexivity.
Qed.

(** On ASCII text [int()] is the ASCII parser. *)
Lemma py_int_ascii {U : UnicodeData} (s : string) :
  all_chars (fun c => (N_of_ascii c <? 128)%N) s = true -> py_int s = int_of_ascii s.
Proof.
  intros Hs. unfold py_int, transform. rewrite transform_go_ascii by (auto; lia).
  reflexivity.
Qed.

Lemma int_char_ascii (c : ascii) : is_int_char c = true -> (N_of_ascii c <? 128)%N = true.
Proof. destruct c as [[] [] [] [] [] [] [] []]; vm_compute; congruence. Qed.

Lemma py_int_py_str {U : UnicodeData} (z : Z) : py_int (py_str z) = Some z.
Proof.
  rewrite py_int_ascii; [apply int_of_ascii_py_str|].
  apply all_chars_impl with (P := is_int_char); [exact int_char_ascii|apply py_str_chars].
Qed.

Lemma py_str_nonempty (z : Z) : String.eqb (py_str z) "" = false.
Proof.
  destruct (String.eqb_spec (py_str z) "") as [E|]; [|reflexivity].
  pose proof (int_of_ascii_py_str z) as H. rewrite E in H. discriminate.
Qed.

Lemma hmac_hexdigest_not_falsy (key msg : bytes) :
  String.eqb (hmac_hexdigest key msg) "" = false.
Proof.
  destruct (String.eqb_spec (hmac_hexdigest key msg) "") as [E|]; [|reflexivity].
  destruct (hmac_hexdigest_nonempty _ _ E).
Qed.

(** What the verifier reads in a header the service built. *)
Lemma parse_signature_sign (now : Z) (text secret : string) :
  Packages.parse_signature (sign now text secret) !! "t" = Some (py_str now)
  /\ Packages.parse_signature (sign now text secret) !! "v1"
     = Some (hmac_hexdigest (encode secret) (encode (py_str now +:+ "." +:+ text))).
Proof.
  unfold sign. set (h := hmac_hexdigest _ _).
  assert (Hs : "t=" +:+ py_str now +:+ ",v1=" +:+ h
               = ("t=" +:+ py_str now) +:+ String "," ("v1=" +:+ h)).
  { rewrite !append_assoc. reflexivity. }
  assert (Hn : contains "," ("t=" +:+ py_str now) = false).
  { cbn [String.append contains]. cbn [Ascii.eqb Bool.eqb orb].
    apply all_chars_not_contains with (P := is_int_char); [reflexivity|apply py_str_chars]. }
  assert (Hh : contains "," ("v1=" +:+ h) = false).
  { cbn [String.append contains]. cbn [Ascii.eqb Bool.eqb orb].
    apply all_chars_not_contains with (P := is_hex_char);
      [reflexivity|apply hmac_hexdigest_hex]. }
  unfold Packages.parse_signature.
  rewrite Hs, (split_app _ _ _ Hn), (split_no_sep _ _ Hh).
  cbn [String.append List.filter contains Ascii.eqb Bool.eqb orb omap list_omap
         split_once foldl fst snd].
  split.
  - rewrite lookup_insert_ne by discriminate. apply lookup_insert_eq.
  - apply lookup_insert_eq.
Qed.

(** ** The timestamped webhook scheme ([packages/sdk-python]) *)

Import Packages.

(** C1, as stated, fails for a negative tolerance: [abs(now - t) > tolerance]
    holds even at the signing time, so the fresh signature is refused. *)
Lemma C1_negative_tolerance_refused :
  verify_webhook_signature 1700000000 (Text "[1]")
    (sign 1700000000 "[1]" "whsec") "whsec" (-1) = Returned false.
Proof. vm_compute. reflexivity. Qed.

(** C1 (amended): for every payload with text [text], secret and tolerance
    [>= 0], the header [t=now,v1=hex(HMAC-SHA256(secret, "now.text"))]
    verifies at time [now] and is refused at time [now + tolerance + 1]. *)
Theorem C1_sign_then_verify {U : UnicodeData}
    (now : Z) (payload : payload) (text secret : string)
    (tolerance : Z) :
  payload_text payload = Returned text ->
  0 <= tolerance ->
  verify_webhook_signature now payload (sign now text secret) secret tolerance
  = Returned true
  /\ verify_webhook_signature (now + tolerance + 1) payload (sign now text secret)
       secret tolerance
     = Returned false.
Proof.
  intros Htext Htol.
  destruct (parse_signature_sign now text secret) as [Ht Hv].
  unfold verify_webhook_signature. rewrite Htext. cbn [bind]. rewrite Ht, Hv.
  cbn [falsy default from_option id]. rewrite py_str_nonempty, hmac_hexdigest_not_falsy.
  cbn [orb]. rewrite py_int_py_str. split.
  - replace (Z.abs (now - now) >? tolerance) with false
      by (symmetry; rewrite Z.gtb_ltb; apply Z.ltb_ge; lia).
    unfold compare_digest.
    rewrite (all_chars_is_ascii _ (hmac_hexdigest_hex _ _)), String.eqb_refl.
    reflexivity.
  - replace (Z.abs (now + tolerance + 1 - now) >? tolerance) with true
      by (symmetry; rewrite Z.gtb_ltb; apply Z.ltb_lt; lia).
    reflexivity.
Qed.

Lemma C1_sign_then_verify_witness :
  verify_webhook_signature 1700000000 (Text "[1]")
    (sign 1700000000 "[1]" "whsec") "whsec" 300 = Returned true
  /\ verify_webhook_signature (1700000000 + 300 + 1) (Text "[1]")
       (sign 1700000000 "[1]" "whsec") "whsec" 300 = Returned false.
Proof.
  apply (C1_sign_then_verify 1700000000 (Text "[1]") "[1]" "whsec" 300);
    [reflexivity | lia].
Defined.

(** C2, as stated, fails for a [bytes] payload that is not UTF-8: decoding
    raises before the header is looked at. *)
Lemma C2_undecodable_payload_raises :
  verify_webhook_signature 1700000000 (Raw [Byte.xff]) "v1=abc" "whsec" 300
  = Raised UnicodeDecodeError.
Proof. vm_compute. reflexivity. Qed.

(** C2 (amended): for every payload that is text or UTF-8 bytes, every secret
    and every header whose parsed pairs lack [t] or lack [v1], or whose [t]
    is not an integer literal to [int()], verification returns false (it
    does not raise). *)
Theorem C2_malformed_header_is_false {U : UnicodeData}
    (now : Z) (payload : payload) (text : string)
    (signature secret : string) (tolerance : Z) :
  payload_text payload = Returned text ->
  (parse_signature signature !! "t" = None
   \/ parse_signature signature !! "v1" = None
   \/ exists ts, parse_signature signature !! "t" = Some ts /\ py_int ts = None) ->
  verify_webhook_signature now payload signature secret tolerance = Returned false.
Proof.
  intros Htext H. unfold verify_webhook_signature. rewrite Htext. cbn [bind].
  destruct H as [H | [H | (ts & H & Hts)]]; rewrite H; cbn [falsy default from_option id].
  - reflexivity.
  - rewrite orb_true_r. reflexivity.
  - rewrite Hts. destruct (_ || _); reflexivity.
Qed.

Lemma C2_malformed_header_is_false_witness :
  verify_webhook_signature 1700000000 (Text "[1]") "v1=abc" "whsec" 300
  = Returned false
  /\ verify_webhook_signature 1700000000 (Text "[1]") "t=1700000000" "whsec" 300
     = Returned false
  /\ verify_webhook_signature 1700000000 (Text "[1]") "t=17e8,v1=abc" "whsec" 300
     = Returned false.
Proof.
  split; [|split].
  - apply (C2_malformed_header_is_false 1700000000 (Text "[1]") "[1]" "v1=abc" "whsec" 300);
      [reflexivity | left; vm_compute; reflexivity].
  - apply (C2_malformed_header_is_false 1700000000 (Text "[1]") "[1]" "t=1700000000"
             "whsec" 300);
      [reflexivity | right; left; vm_compute; reflexivity].
  - apply (C2_malformed_header_is_false 1700000000 (Text "[1]") "[1]" "t=17e8,v1=abc"
             "whsec" 300);
      [reflexivity | right; right; exists "17e8"; vm_compute; split; reflexivity].
Defined.

(** C3: whenever verification returns false, [parse_webhook_payload] raises
    [MailatError("Invalid webhook signature", 401)], an authentication
    error, without calling [json.loads]; and [json.loads] is called only
    when verification returned true. *)
Theorem C3_unverified_payload_is_not_parsed {U : UnicodeData} (Model : Type)
    (model_validate : json -> outcome builtin_exn Model)
    (json_loads : string -> option json)
    (now : Z) (payload : payload) (signature secret : string) :
  (verify_webhook_signature now payload signature secret 300 = Returned false ->
   parse_webhook_payload Model model_validate json_loads now payload signature secret
   = (Raised (MailatError (JStr "Invalid webhook signature") 401 JNull), [])
   /\ kind (MailatError (JStr "Invalid webhook signature") 401 JNull)
      = Some KAuthenticationError)
  /\ (forall text,
        In (JsonLoads text)
           (snd (parse_webhook_payload Model model_validate json_loads
                   now payload signature secret)) ->
        verify_webhook_signature now payload signature secret 300 = Returned true).
Proof.
  unfold parse_webhook_payload. split.
  - intros ->. split; reflexivity.
  - intros text.
    destruct (verify_webhook_signature now payload signature secret 300) as [[|]|e];
      cbn [snd]; try (intros []; fail).
    reflexivity.
Qed.

Lemma C3_unverified_payload_is_not_parsed_witness :
  parse_webhook_payload json Returned (fun _ => None) 1700000000 (Text "[2]")
    (sign 1700000000 "[1]" "whsec") "whsec"
  = (Raised (MailatError (JStr "Invalid webhook signature") 401 JNull), [])
  /\ kind (MailatError (JStr "Invalid webhook signature") 401 JNull)
     = Some KAuthenticationError.
Proof.
  apply (C3_unverified_payload_is_not_parsed json Returned (fun _ => None)
           1700000000 (Text "[2]") (sign 1700000000 "[1]" "whsec") "whsec").
  vm_compute. reflexivity.
Defined.

(** ** The retry loop ([sdks/python]) *)

Lemma after_after (w : world) (r1 r2 : list http_request) (d1 d2 : list Z) :
  after (after w r1 d1) r2 d2 = after w (r1 ++ r2) (d1 ++ d2).
Proof. unfold after. cbn [sent slept]. rewrite <- !app_assoc. reflexivity. Qed.

Lemma sent_after (w : world) (rs : list http_request) (ds : list Z) :
  length (sent (after w rs ds)) = (length (sent w) + length rs)%nat.
Proof. unfold after. cbn [sent]. apply length_app. Qed.

Lemma http_call_after (srv : server) (rq : http_request) (w : world) :
  http_call srv rq w = (srv (length (sent w)) rq, after w [rq] []).
Proof. unfold http_call, after. rewrite app_nil_r. reflexivity. Qed.

Lemma sleep_after (d : Z) (w : world) (rs : list http_request) :
  0 <= d <= SLEEP_MAX -> sleep d (after w rs []) = Returned (after w rs [d]).
Proof.
  intros Hd. unfold sleep.
  replace (d <? - SLEEP_MAX) with false by (symmetry; apply Z.ltb_ge; unfold SLEEP_MAX in *; lia).
  replace (SLEEP_MAX <? d) with false by (symmetry; apply Z.ltb_ge; lia).
  replace (d <? 0) with false by (symmetry; apply Z.ltb_ge; lia).
  unfold after. cbn [sent slept orb]. rewrite app_nil_r. reflexivity.
Qed.

Lemma sleep_overflow (d : Z) (w : world) :
  SLEEP_MAX < d -> sleep d w = Raised OverflowError.
Proof.
  intros Hd. unfold sleep. apply Z.ltb_lt in Hd. rewrite Hd, orb_true_r. reflexivity.
Qed.

(** [2^attempt] fits [time.sleep] up to attempt 33, and no further. *)
Lemma pow2_short (a : Z) : 0 <= a <= 33 -> 2 ^ a <= SLEEP_MAX.
Proof.
  intros H. transitivity (2 ^ 33); [apply Z.pow_le_mono_r; lia | vm_compute; discriminate].
Qed.

Lemma pow2_long (a : Z) : 34 <= a -> SLEEP_MAX < 2 ^ a.
Proof.
  intros H. apply Z.lt_le_trans with (2 ^ 34); [reflexivity | apply Z.pow_le_mono_r; lia].
Qed.

Section Loop.

Context {U : UnicodeData}.
Variable srv : server.
Variable self : Sdks.client.
Variable rq : http_request.

(** An attempt whose [try] block returns ends the loop. *)
Lemma loop_returns (n : nat) (attempt : Z) (le : option Sdks.exn) (w : world) (v : json) :
  Sdks.attempt_body (srv (length (sent w)) rq) = Returned v ->
  Sdks.request_loop srv self rq (S n) attempt le w = (Returned v, after w [rq] []).
Proof.
  intros H. cbn [Sdks.request_loop]. rewrite http_call_after, H. reflexivity.
Qed.

(** A timeout or network error with attempts left: sleep [2^attempt], go on. *)
Lemma loop_transient_retry (n : nat) (attempt : Z) (le : option Sdks.exn) (w : world)
    (h : httpx_exn) :
  srv (length (sent w)) rq = Raised h -> transient (Raised h) = true ->
  attempt < Sdks.max_retries self ->
  2 ^ attempt <= SLEEP_MAX ->
  Sdks.request_loop srv self rq (S n) attempt le w
  = Sdks.request_loop srv self rq n (attempt + 1) (Some (Sdks.Httpx h))
      (after w [rq] [2 ^ attempt]).
Proof.
  intros Hs Ht Hlt Hshort. cbn [Sdks.request_loop]. rewrite http_call_after, Hs.
  cbn [Sdks.attempt_body].
  apply Z.ltb_lt in Hlt.
  assert (Hd : 0 <= 2 ^ attempt <= SLEEP_MAX) by (split; [apply Z.pow_nonneg; lia|exact Hshort]).
  destruct h; try discriminate Ht; rewrite Hlt, (sleep_after _ _ _ Hd); reflexivity.
Qed.

(** A timeout or network error with attempts left, when [2^attempt] is more
    than [time.sleep] takes. *)
Lemma loop_transient_overflow (n : nat) (attempt : Z) (le : option Sdks.exn) (w : world)
    (h : httpx_exn) :
  srv (length (sent w)) rq = Raised h -> transient (Raised h) = true ->
  attempt < Sdks.max_retries self ->
  SLEEP_MAX < 2 ^ attempt ->
  Sdks.request_loop srv self rq (S n) attempt le w
  = (Raised (Sdks.Builtin OverflowError), after w [rq] []).
Proof.
  intros Hs Ht Hlt Hbig. cbn [Sdks.request_loop]. rewrite http_call_after, Hs.
  cbn [Sdks.attempt_body].
  apply Z.ltb_lt in Hlt.
  destruct h; try discriminate Ht; rewrite Hlt, (sleep_overflow _ _ Hbig); reflexivity.
Qed.

(** A timeout or network error on the last attempt. *)
Lemma loop_transient_exhausted (n : nat) (attempt : Z) (le : option Sdks.exn) (w : world)
    (h : httpx_exn) :
  srv (length (sent w)) rq = Raised h -> transient (Raised h) = true ->
  Sdks.max_retries self <= attempt ->
  Sdks.request_loop srv self rq (S n) attempt le w
  = (Raised (Sdks.MailatError (JStr ("Network error: " +:+ httpx_str h)) 0 None),
     after w [rq] []).
Proof.
  intros Hs Ht Hge. cbn [Sdks.request_loop]. rewrite http_call_after, Hs.
  cbn [Sdks.attempt_body].
  apply Z.ltb_ge in Hge.
  destruct h; try discriminate Ht; rewrite Hge; reflexivity.
Qed.

End Loop.

(** Bring the index of the next call to the form [S (.. (length (sent w)))]. *)
Ltac at_call :=
  rewrite ?sent_after; cbn [length app]; rewrite ?Nat.add_succ_r, ?Nat.add_0_r.

Lemma transient_raised (o : outcome httpx_exn response) :
  transient o = true -> exists h, o = Raised h.
Proof. destruct o as [r|h]; [discriminate|eauto]. Qed.

(** The side conditions of a retry step. *)
Ltac retry_side E :=
  first [ solve [at_call; rewrite <- ?E; auto]
        | lia
        | solve [vm_compute; discriminate] ].

(** A response with a status in [200,300) and a body that is an object (or
    not JSON) makes the attempt return. *)
Lemma attempt_body_success {U : UnicodeData} (r : response) :
  200 <= status_code r < 300 ->
  is_object (parsed_body r) = true ->
  Sdks.attempt_body (Returned r) = Returned (unwrap_data (parsed_body r)).
Proof.
  intros Hs Ho. unfold Sdks.attempt_body, is_success.
  replace (200 <=? status_code r) with true by (symmetry; apply Z.leb_le; lia).
  replace (status_code r <=? 299) with true by (symmetry; apply Z.leb_le; lia).
  cbn [andb negb bind]. fold (parsed_body r).
  destruct (parsed_body r); try discriminate Ho. reflexivity.
Qed.

(** C4, as stated, fails when the response that ends the failures is a 200
    whose body is JSON but not an object: after the sleeps 1, 2, 4 [request]
    raises [AttributeError] instead of returning. *)
Lemma C4_array_body_success_raises :
  let rq := Sdks.build_request default_client "GET" "/emails" None in
  Sdks.request (flaky_server 3 (Response 200 (Some (JList [JInt 1])) [])) default_client
    "GET" "/emails" None world0
  = (Raised (Sdks.Builtin (AttributeError "object has no attribute 'get'")),
     after world0 [rq; rq; rq; rq] [1; 2; 4]).
Proof. vm_compute. reflexivity. Qed.

(** C4 (amended): with [max_retries = 3], three transient failures followed
    by a response with a status in [200,300) whose body is a JSON object or
    is not JSON make [request] return that body's [data] field, or the whole
    body when it has none, after four requests and exactly the sleeps 1, 2,
    4, in that order. *)
Theorem C4_three_failures_then_success {U : UnicodeData} (srv : server)
    (self : Sdks.client) (method endpoint : string) (body : option json) (w : world)
    (r : response) :
  let rq := Sdks.build_request self method endpoint body in
  let k := length (sent w) in
  Sdks.max_retries self = 3 ->
  transient (srv k rq) = true ->
  transient (srv (S k) rq) = true ->
  transient (srv (S (S k)) rq) = true ->
  srv (S (S (S k))) rq = Returned r ->
  200 <= status_code r < 300 ->
  is_object (parsed_body r) = true ->
  Sdks.request srv self method endpoint body w
  = (Returned (unwrap_data (parsed_body r)), after w [rq; rq; rq; rq] [1; 2; 4]).
Proof.
  intros rq k Hmax H0 H1 H2 H3 Hs Ho.
  destruct (transient_raised _ H0) as [h0 E0].
  destruct (transient_raised _ H1) as [h1 E1].
  destruct (transient_raised _ H2) as [h2 E2].
  unfold Sdks.request. fold rq. rewrite Hmax.
  change (Z.to_nat (3 + 1)) with 4%nat.
  rewrite (loop_transient_retry _ _ _ _ _ _ _ h0) by retry_side E0.
  rewrite (loop_transient_retry _ _ _ _ _ _ _ h1) by retry_side E1.
  rewrite after_after.
  rewrite (loop_transient_retry _ _ _ _ _ _ _ h2) by retry_side E2.
  rewrite after_after.
  rewrite (loop_returns _ _ _ _ _ _ _ (unwrap_data (parsed_body r)))
    by (at_call; fold k; rewrite H3; apply attempt_body_success; assumption).
  rewrite after_after. reflexivity.
Qed.

Lemma C4_three_failures_then_success_witness :
  let ok := Response 200 (Some (JDict [("data", JInt 7)])) [] in
  let rq := Sdks.build_request default_client "GET" "/emails" None in
  Sdks.request (flaky_server 3 ok) default_client "GET" "/emails" None world0
  = (Returned (JInt 7), after world0 [rq; rq; rq; rq] [1; 2; 4]).
Proof.
  intros ok rq.
  apply (C4_three_failures_then_success (flaky_server 3 ok) default_client
           "GET" "/emails" None world0 ok);
    [reflexivity | reflexivity | reflexivity | reflexivity | reflexivity
    | vm_compute; split; congruence | reflexivity].
Defined.

(** C5: with [max_retries = 2] and a transport that fails on every call with
    a timeout or a network error, [request] sends exactly three requests
    (sleeping 1 then 2 seconds in between) and raises the [MailatError]
    ["Network error: ..."] whose status code is 0, the network-error kind. *)
Theorem C5_permanent_failure_three_attempts {U : UnicodeData} (srv : server)
    (self : Sdks.client)
    (method endpoint : string) (body : option json) (w : world) :
  let rq := Sdks.build_request self method endpoint body in
  Sdks.max_retries self = 2 ->
  (forall k, transient (srv k rq) = true) ->
  exists h e,
    transient (Raised h) = true
    /\ e = Sdks.MailatError (JStr ("Network error: " +:+ httpx_str h)) 0 None
    /\ Sdks.request srv self method endpoint body w = (Raised e, after w [rq; rq; rq] [1; 2])
    /\ Sdks.exn_status_code e = Some 0
    /\ Sdks.kind e = Some KNetworkError.
Proof.
  intros rq Hmax Hall.
  set (k := length (sent w)).
  destruct (transient_raised _ (Hall k)) as [h0 E0].
  destruct (transient_raised _ (Hall (S k))) as [h1 E1].
  destruct (transient_raised _ (Hall (S (S k)))) as [h2 E2].
  exists h2, (Sdks.MailatError (JStr ("Network error: " +:+ httpx_str h2)) 0 None).
  split; [rewrite <- E2; apply Hall|]. split; [reflexivity|].
  split; [|split; reflexivity].
  unfold Sdks.request. fold rq. rewrite Hmax.
  change (Z.to_nat (2 + 1)) with 3%nat.
  rewrite (loop_transient_retry _ _ _ _ _ _ _ h0) by retry_side E0.
  rewrite (loop_transient_retry _ _ _ _ _ _ _ h1) by retry_side E1.
  rewrite after_after.
  rewrite (loop_transient_exhausted _ _ _ _ _ _ _ h2) by (at_call; rewrite <- ?E2; auto; lia).
  rewrite after_after. reflexivity.
Qed.

Lemma C5_permanent_failure_three_attempts_witness :
  let rq := Sdks.build_request (Sdks.Client Sdks.DEFAULT_BASE_URL 2) "GET" "/emails" None in
  exists h e,
    transient (Raised h) = true
    /\ e = Sdks.MailatError (JStr ("Network error: " +:+ httpx_str h)) 0 None
    /\ Sdks.request dead_server (Sdks.Client Sdks.DEFAULT_BASE_URL 2) "GET" "/emails" None world0
       = (Raised e, after world0 [rq; rq; rq] [1; 2])
    /\ Sdks.exn_status_code e = Some 0
    /\ Sdks.kind e = Some KNetworkError.
Proof.
  apply (C5_permanent_failure_three_attempts dead_server
           (Sdks.Client Sdks.DEFAULT_BASE_URL 2) "GET" "/emails" None world0);
    [reflexivity | intros k; reflexivity].
Defined.

(** ** Responses *)

Lemma attempt_body_response {U : UnicodeData} (r : response) :
  Sdks.attempt_body (Returned r)
  = (do _ <- (if negb (is_success r)
              then Sdks._handle_error (status_code r) (parsed_body r) r
              else Returned tt);
     Sdks.lift (json_get (parsed_body r) "data" (parsed_body r))).
Proof. reflexivity. Qed.

(** An exception no [except] clause catches leaves [request] at once. *)
Lemma loop_propagates {U : UnicodeData} (srv : server) (self : Sdks.client) (rq : http_request)
    (n : nat) (attempt : Z) (le : option Sdks.exn) (w : world) (e : Sdks.exn) :
  Sdks.attempt_body (srv (length (sent w)) rq) = Raised e ->
  caught e = false ->
  Sdks.request_loop srv self rq (S n) attempt le w = (Raised e, after w [rq] []).
Proof.
  intros H Hc. cbn [Sdks.request_loop]. rewrite http_call_after, H.
  destruct e as [b|[m|m|m|m]|m s r0|m|m ra|m er|m|m]; try discriminate Hc; reflexivity.
Qed.

Lemma first_attempt (self : Sdks.client) :
  0 <= Sdks.max_retries self ->
  Z.to_nat (Sdks.max_retries self + 1) = S (Z.to_nat (Sdks.max_retries self)).
Proof. intros H. rewrite Z2Nat.inj_add by lia. rewrite Nat.add_1_r. reflexivity. Qed.

Lemma handle_error_401 {U : UnicodeData} (r : response) :
  status_code r = 401 -> is_object (parsed_body r) = true ->
  Sdks.attempt_body (Returned r)
  = Raised (Sdks.AuthenticationError (error_message (parsed_body r))).
Proof.
  intros Hs Ho. rewrite attempt_body_response. unfold is_success. rewrite Hs.
  cbn [Z.leb Z.compare Pos.compare Pos.compare_cont andb negb].
  unfold Sdks._handle_error.
  destruct (parsed_body r); try discriminate Ho. reflexivity.
Qed.

(** C6, as stated, fails for a 401 response whose body is JSON but not an
    object: reading its [message] raises [AttributeError]. *)
Lemma C6_array_body_is_not_authentication_error :
  fst (Sdks.request (constant_server (Response 401 (Some (JList [])) []))
         default_client "GET" "/emails" None world0)
  = Raised (Sdks.Builtin (AttributeError "object has no attribute 'get'")).
Proof. vm_compute. reflexivity. Qed.

(** C6 (amended): for every [max_retries >= 0], a first response with status
    401 whose body is a JSON object, or is not JSON at all, makes [request]
    raise [AuthenticationError] with the body's message after that single
    request, without any sleep. *)
Theorem C6_unauthorized_not_retried {U : UnicodeData} (srv : server) (self : Sdks.client)
    (method endpoint : string) (body : option json) (w : world) (r : response) :
  let rq := Sdks.build_request self method endpoint body in
  0 <= Sdks.max_retries self ->
  srv (length (sent w)) rq = Returned r ->
  status_code r = 401 ->
  is_object (parsed_body r) = true ->
  Sdks.request srv self method endpoint body w
  = (Raised (Sdks.AuthenticationError (error_message (parsed_body r))), after w [rq] [])
  /\ Sdks.kind (Sdks.AuthenticationError (error_message (parsed_body r)))
     = Some KAuthenticationError.
Proof.
  intros rq Hmax Hsrv Hs Ho. split; [|reflexivity].
  unfold Sdks.request. fold rq. rewrite (first_attempt _ Hmax).
  apply loop_propagates; [|reflexivity].
  rewrite Hsrv. apply handle_error_401; assumption.
Qed.

Lemma C6_unauthorized_not_retried_witness :
  let r := Response 401 (Some (JDict [("message", JStr "Invalid API key")])) [] in
  let rq := Sdks.build_request default_client "GET" "/emails" None in
  Sdks.request (constant_server r) default_client "GET" "/emails" None world0
  = (Raised (Sdks.AuthenticationError (JStr "Invalid API key")), after world0 [rq] [])
  /\ Sdks.kind (Sdks.AuthenticationError (JStr "Invalid API key"))
     = Some KAuthenticationError.
Proof.
  intros r rq.
  apply (C6_unauthorized_not_retried (constant_server r) default_client
           "GET" "/emails" None world0 r); [vm_compute; congruence | reflexivity..].
Defined.

Lemma handle_error_429 {U : UnicodeData} (r : response) :
  status_code r = 429 -> is_object (parsed_body r) = true ->
  Sdks.attempt_body (Returned r)
  = match headers_get (headers r) "Retry-After" with
    | Some s =>
        if String.eqb s "" then Raised (Sdks.RateLimitError (error_message (parsed_body r)) None)
        else match py_int s with
             | Some n => Raised (Sdks.RateLimitError (error_message (parsed_body r)) (Some n))
             | None => Raised (Sdks.Builtin (ValueError "invalid literal for int() with base 10"))
             end
    | None => Raised (Sdks.RateLimitError (error_message (parsed_body r)) None)
    end.
Proof.
  intros Hs Ho. rewrite attempt_body_response. unfold is_success. rewrite Hs.
  cbn [Z.leb Z.compare Pos.compare Pos.compare_cont andb negb].
  unfold Sdks._handle_error.
  destruct (parsed_body r); try discriminate Ho.
  cbn [json_get Sdks.lift bind error_message Z.eqb Pos.eqb].
  destruct (headers_get (headers r) "Retry-After") as [s|]; [|reflexivity].
  destruct (String.eqb s ""); [reflexivity|]. destruct (py_int s); reflexivity.
Qed.

Section RateLimit.

Context {U : UnicodeData}.
Variable srv : server.
Variable self : Sdks.client.
Variable rq : http_request.

Lemma loop_rate_limited_retry (n : nat) (attempt : Z) (le : option Sdks.exn) (w : world)
    (m : json) (ra : option Z) (d : Z) :
  Sdks.attempt_body (srv (length (sent w)) rq) = Raised (Sdks.RateLimitError m ra) ->
  attempt < Sdks.max_retries self ->
  d = match ra with
      | Some x => if x =? 0 then 2 ^ attempt else x
      | None => 2 ^ attempt
      end ->
  0 <= d <= SLEEP_MAX ->
  Sdks.request_loop srv self rq (S n) attempt le w
  = Sdks.request_loop srv self rq n (attempt + 1) (Some (Sdks.RateLimitError m ra))
      (after w [rq] [d]).
Proof.
  intros H Hlt Hd Hpos. cbn [Sdks.request_loop]. rewrite http_call_after, H.
  apply Z.ltb_lt in Hlt. rewrite Hlt, <- Hd, sleep_after by assumption. reflexivity.
Qed.

Lemma loop_rate_limited_exhausted (n : nat) (attempt : Z) (le : option Sdks.exn) (w : world)
    (m : json) (ra : option Z) :
  Sdks.attempt_body (srv (length (sent w)) rq) = Raised (Sdks.RateLimitError m ra) ->
  Sdks.max_retries self <= attempt ->
  Sdks.request_loop srv self rq (S n) attempt le w
  = (Raised (Sdks.RateLimitError m ra), after w [rq] []).
Proof.
  intros H Hge. cbn [Sdks.request_loop]. rewrite http_call_after, H.
  apply Z.ltb_ge in Hge. rewrite Hge. reflexivity.
Qed.

Lemma loop_rate_limited_overflow (n : nat) (attempt : Z) (le : option Sdks.exn) (w : world)
    (m : json) (ra : option Z) (d : Z) :
  Sdks.attempt_body (srv (length (sent w)) rq) = Raised (Sdks.RateLimitError m ra) ->
  attempt < Sdks.max_retries self ->
  d = match ra with
      | Some x => if x =? 0 then 2 ^ attempt else x
      | None => 2 ^ attempt
      end ->
  SLEEP_MAX < d ->
  Sdks.request_loop srv self rq (S n) attempt le w
  = (Raised (Sdks.Builtin OverflowError), after w [rq] []).
Proof.
  intros H Hlt Hd Hbig. cbn [Sdks.request_loop]. rewrite http_call_after, H.
  apply Z.ltb_lt in Hlt. rewrite Hlt, <- Hd, sleep_overflow by assumption. reflexivity.
Qed.

End RateLimit.

(** C7, as stated, fails for a 429 response whose body is JSON but not an
    object: [request] raises [AttributeError] and never sleeps. *)
Lemma C7_array_body_is_not_retried :
  Sdks.request
    (constant_server (Response 429 (Some (JList [])) [("Retry-After", "5")]))
    default_client "GET" "/emails" None world0
  = (Raised (Sdks.Builtin (AttributeError "object has no attribute 'get'")),
     after world0 [Sdks.build_request default_client "GET" "/emails" None] []).
Proof. vm_compute. reflexivity. Qed.

(** C7 (amended): on an attempt answered by a 429 response whose body is a
    JSON object or is not JSON, with [Retry-After: 5] the loop sleeps exactly
    5 seconds and goes to the next attempt when attempts remain, and raises
    [RateLimitError] carrying 5 when none remain; without the header, when
    attempts remain, it sleeps [2^attempt] seconds as long as that is at most
    [SLEEP_MAX] (attempts 0 to 33) and [time.sleep] raises [OverflowError]
    beyond; when no attempt remains it raises [RateLimitError] without a
    hint. *)
Theorem C7_rate_limit_backoff {U : UnicodeData} (srv : server) (self : Sdks.client)
    (rq : http_request) (n : nat) (attempt : Z) (le : option Sdks.exn) (w : world)
    (r : response) :
  let msg := error_message (parsed_body r) in
  let loop := Sdks.request_loop srv self rq in
  srv (length (sent w)) rq = Returned r ->
  status_code r = 429 ->
  is_object (parsed_body r) = true ->
  (headers_get (headers r) "Retry-After" = Some "5" ->
     (attempt < Sdks.max_retries self ->
        loop (S n) attempt le w
        = loop n (attempt + 1) (Some (Sdks.RateLimitError msg (Some 5))) (after w [rq] [5]))
     /\ (Sdks.max_retries self <= attempt ->
           loop (S n) attempt le w
           = (Raised (Sdks.RateLimitError msg (Some 5)), after w [rq] [])))
  /\ (headers_get (headers r) "Retry-After" = None ->
        (0 <= attempt < Sdks.max_retries self -> 2 ^ attempt <= SLEEP_MAX ->
           loop (S n) attempt le w
           = loop n (attempt + 1) (Some (Sdks.RateLimitError msg None))
               (after w [rq] [2 ^ attempt]))
        /\ (attempt < Sdks.max_retries self -> SLEEP_MAX < 2 ^ attempt ->
              loop (S n) attempt le w
              = (Raised (Sdks.Builtin OverflowError), after w [rq] []))
        /\ (Sdks.max_retries self <= attempt ->
              loop (S n) attempt le w
              = (Raised (Sdks.RateLimitError msg None), after w [rq] []))).
Proof.
  intros msg loop Hsrv Hs Ho. subst loop.
  pose proof (handle_error_429 r Hs Ho) as Hb. rewrite <- Hsrv in Hb.
  split; intros Hh; rewrite Hh in Hb.
  - rewrite py_int_ascii in Hb by reflexivity.
    change (int_of_ascii "5") with (Some 5) in Hb. cbn [String.eqb Ascii.eqb] in Hb.
    split; intros Hat.
    + apply loop_rate_limited_retry;
        [exact Hb | exact Hat | reflexivity | split; [lia | vm_compute; discriminate]].
    + apply loop_rate_limited_exhausted; [exact Hb | exact Hat].
  - split; [|split].
    + intros Hat Hmax. apply loop_rate_limited_retry; [exact Hb | lia | reflexivity |].
      split; [apply Z.pow_nonneg; lia | exact Hmax].
    + intros Hat Hbig.
      eapply loop_rate_limited_overflow; [exact Hb | exact Hat | reflexivity | exact Hbig].
    + intros Hat. apply loop_rate_limited_exhausted; [exact Hb | exact Hat].
Qed.

Lemma C7_rate_limit_backoff_witness :
  let limited := Response 429 (Some (JDict [("message", JStr "Slow down")]))
                   [("Retry-After", "5")] in
  let bare := Response 429 (Some (JDict [("message", JStr "Slow down")])) [] in
  let ok := Response 200 (Some (JDict [("data", JInt 7)])) [] in
  let rq := Sdks.build_request default_client "GET" "/emails" None in
  Sdks.request_loop (server_after limited ok) default_client rq 4%nat 0 None world0
  = Sdks.request_loop (server_after limited ok) default_client rq 3%nat (0 + 1)
      (Some (Sdks.RateLimitError (JStr "Slow down") (Some 5))) (after world0 [rq] [5])
  /\ Sdks.request_loop (server_after bare ok) default_client rq 4%nat 0 None world0
     = Sdks.request_loop (server_after bare ok) default_client rq 3%nat (0 + 1)
         (Some (Sdks.RateLimitError (JStr "Slow down") None)) (after world0 [rq] [2 ^ 0]).
Proof.
  intros limited bare ok rq. split.
  - apply (C7_rate_limit_backoff (server_after limited ok) default_client rq
             3%nat 0 None world0 limited); [reflexivity.. | vm_compute; reflexivity].
  - apply (C7_rate_limit_backoff (server_after bare ok) default_client rq
             3%nat 0 None world0 bare);
      [reflexivity.. | vm_compute; split; congruence | vm_compute; discriminate].
Defined.

Lemma sleep_sent (d : Z) (w w' : world) : sleep d w = Returned w' -> sent w' = sent w.
Proof.
  unfold sleep. destruct (_ || _); [discriminate|].
  destruct (d <? 0); [discriminate|]. intros [= <-]. reflexivity.
Qed.

(** The loop asks the service only for calls from the current one on. *)
Lemma loop_server_ext {U : UnicodeData} (srv srv' : server) (self : Sdks.client)
    (rq : http_request) (n : nat) :
  forall attempt le w,
    (forall k, (length (sent w) <= k)%nat -> srv k rq = srv' k rq) ->
    Sdks.request_loop srv self rq n attempt le w
    = Sdks.request_loop srv' self rq n attempt le w.
Proof.
  induction n as [|n IH]; intros attempt le w Hext; [reflexivity|].
  cbn [Sdks.request_loop]. rewrite !http_call_after, <- (Hext _ (Nat.le_refl _)).
  assert (Hgo : forall d e,
             match sleep d (after w [rq] []) with
             | Returned w2 => Sdks.request_loop srv self rq n (attempt + 1) (Some e) w2
             | Raised e' => (Raised (Sdks.Builtin e'), after w [rq] [])
             end
             = match sleep d (after w [rq] []) with
               | Returned w2 => Sdks.request_loop srv' self rq n (attempt + 1) (Some e) w2
               | Raised e' => (Raised (Sdks.Builtin e'), after w [rq] [])
               end).
  { intros d e. destruct (sleep d (after w [rq] [])) as [w2|e'] eqn:Hsl; [|reflexivity].
    apply IH. intros k Hk. apply Hext.
    rewrite (sleep_sent _ _ _ Hsl), sent_after in Hk. lia. }
  destruct (Sdks.attempt_body _) as [v|e]; [reflexivity|].
  destruct e as [b|[m|m|m|m]|m s r0|m|m ra|m er|m|m]; try reflexivity;
    destruct (attempt <? Sdks.max_retries self); try reflexivity; apply Hgo.
Qed.

(** In [Mailat.request] a body that is not JSON is the empty object. *)
Lemma attempt_body_unparsable {U : UnicodeData} (r : response) :
  json_body r = None ->
  Sdks.attempt_body (Returned r) = Sdks.attempt_body (Returned (with_empty_object r)).
Proof.
  intros Hnone. rewrite !attempt_body_response. unfold parsed_body, is_success.
  cbn [with_empty_object json_body status_code headers]. rewrite Hnone. reflexivity.
Qed.

(** C8, as stated, fails on both code places. In [Mailat.request] of
    [sdks/python] a 2xx response whose body is JSON but not an object is not
    returned whole, [AttributeError] is raised. In [Mailat._request] of
    [packages/sdk-python] a body that is not JSON is a hard failure, and the
    [data] field of a 2xx body is not unwrapped. *)
Lemma C8_array_body_is_not_returned :
  fst (Sdks.request (constant_server (Response 200 (Some (JList [JInt 1])) []))
         default_client "GET" "/emails" None world0)
  = Raised (Sdks.Builtin (AttributeError "object has no attribute 'get'"))
  /\ fst (Packages._request (constant_server (Response 200 None []))
            "GET" "/emails" "https://api.mailat.co/api/v1" None [] world0)
     = Raised (Packages.Builtin JSONDecodeError)
  /\ fst (Packages._request
            (constant_server (Response 200 (Some (JDict [("data", JInt 7)])) []))
            "GET" "/emails" "https://api.mailat.co/api/v1" None [] world0)
     = Returned (JDict [("data", JInt 7)]).
Proof. vm_compute. repeat split. Qed.

(** C8 (amended). In [Mailat.request] of [sdks/python], on every attempt: a
    response whose body is not JSON (or is empty) is handled exactly as the
    same response with the empty object as body; and a response with a status
    in [200,300) whose parsed body is a JSON object makes [request] return
    the [data] field when present and the whole parsed body otherwise. In
    [Mailat._request] of [packages/sdk-python]: a response whose body is not
    JSON raises the JSON decode error, and a response with a status in
    [200,300) is returned as the whole parsed body. *)
Theorem C8_success_unwraps_data {U : UnicodeData} (srv : server) (self : Sdks.client)
    (rq : http_request) (n : nat) (attempt : Z) (le : option Sdks.exn) (w : world)
    (r : response) :
  srv (length (sent w)) rq = Returned r ->
  (json_body r = None ->
   parsed_body r = JDict []
   /\ Sdks.request_loop srv self rq (S n) attempt le w
      = Sdks.request_loop (answer_at srv (length (sent w)) (with_empty_object r))
          self rq (S n) attempt le w)
  /\ (200 <= status_code r < 300 ->
      is_object (parsed_body r) = true ->
      Sdks.request_loop srv self rq (S n) attempt le w
      = (Returned (unwrap_data (parsed_body r)), after w [rq] []))
  /\ (forall base path : string,
        rq_url rq = base +:+ path ->
        let call := Packages._request srv (rq_method rq) path base (rq_json rq) (rq_headers rq) w in
        (json_body r = None ->
         call = (Raised (Packages.Builtin JSONDecodeError), after w [rq] []))
        /\ (forall result : json,
              json_body r = Some result -> 200 <= status_code r < 300 ->
              call = (Returned result, after w [rq] []))).
Proof.
  intros Hsrv. split; [|split].
  - intros Hnone. unfold parsed_body. rewrite Hnone. split; [reflexivity|].
    cbn [Sdks.request_loop]. rewrite !http_call_after, Hsrv.
    unfold answer_at at 1. rewrite Nat.eqb_refl, <- (attempt_body_unparsable r Hnone).
    assert (Hgo : forall d e,
               match sleep d (after w [rq] []) with
               | Returned w2 => Sdks.request_loop srv self rq n (attempt + 1) (Some e) w2
               | Raised e' => (Raised (Sdks.Builtin e'), after w [rq] [])
               end
               = match sleep d (after w [rq] []) with
                 | Returned w2 =>
                     Sdks.request_loop (answer_at srv (length (sent w)) (with_empty_object r))
                       self rq n (attempt + 1) (Some e) w2
                 | Raised e' => (Raised (Sdks.Builtin e'), after w [rq] [])
                 end).
    { intros d e. destruct (sleep d (after w [rq] [])) as [w2|e'] eqn:Hsl; [|reflexivity].
      apply loop_server_ext. intros k Hk.
      rewrite (sleep_sent _ _ _ Hsl), sent_after in Hk. cbn [length] in Hk.
      unfold answer_at. destruct (Nat.eqb_spec k (length (sent w))); [lia|reflexivity]. }
    destruct (Sdks.attempt_body _) as [v|e]; [reflexivity|].
    destruct e as [b|[m|m|m|m]|m s r0|m|m ra|m er|m|m]; try reflexivity;
      destruct (attempt <? Sdks.max_retries self); try reflexivity; apply Hgo.
  - intros Hs Ho. apply loop_returns. rewrite Hsrv, attempt_body_response.
    unfold is_success.
    replace (200 <=? status_code r) with true by (symmetry; apply Z.leb_le; lia).
    replace (status_code r <=? 299) with true by (symmetry; apply Z.leb_le; lia).
    cbn [andb negb bind].
    destruct (parsed_body r); try discriminate Ho. reflexivity.
  - intros base path Hurl call. subst call. unfold Packages._request.
    rewrite <- Hurl.
    replace (HttpRequest (rq_method rq) (rq_url rq) (rq_json rq) (rq_headers rq)) with rq
      by (destruct rq; reflexivity).
    rewrite http_call_after, Hsrv. split.
    + intros Hnone. rewrite Hnone. reflexivity.
    + intros result Hsome Hs. rewrite Hsome. unfold is_success.
      replace (200 <=? status_code r) with true by (symmetry; apply Z.leb_le; lia).
      replace (status_code r <=? 299) with true by (symmetry; apply Z.leb_le; lia).
      reflexivity.
Qed.

Lemma C8_success_unwraps_data_witness :
  let r := Response 200 (Some (JDict [("data", JInt 7)])) [] in
  let rq := Sdks.build_request default_client "GET" "/emails" None in
  Sdks.request_loop (flaky_server 1 r) default_client rq 3%nat 1 None
    (after world0 [rq] [1])
  = (Returned (JInt 7), after (after world0 [rq] [1]) [rq] []).
Proof.
  intros r rq.
  apply (C8_success_unwraps_data (flaky_server 1 r) default_client rq 2%nat 1 None
           (after world0 [rq] [1]) r);
    [reflexivity | vm_compute; split; congruence | reflexivity].
Defined.

(** ** Batch sending *)

(** The loop only ever adds to the requests sent. *)
Lemma loop_sent_extends {U : UnicodeData}
    (srv : server) (self : Sdks.client) (rq : http_request) (n : nat) :
  forall attempt le w,
    exists l, sent (snd (Sdks.request_loop srv self rq n attempt le w)) = (sent w ++ l)%list.
Proof.
  induction n as [|n IH]; intros attempt le w; cbn [Sdks.request_loop].
  - exists []. rewrite app_nil_r. reflexivity.
  - rewrite http_call_after.
    assert (Hstop : forall o : outcome Sdks.exn json,
               exists l, sent (snd (o, after w [rq] [])) = (sent w ++ l)%list)
      by (intros o; exists [rq]; reflexivity).
    assert (Hgo : forall d e,
               exists l,
                 sent (snd match sleep d (after w [rq] []) with
                           | Returned w2 =>
                               Sdks.request_loop srv self rq n (attempt + 1) (Some e) w2
                           | Raised e' => (Raised (Sdks.Builtin e'), after w [rq] [])
                           end) = (sent w ++ l)%list).
    { intros d e. destruct (sleep d (after w [rq] [])) as [w2|e'] eqn:Hsl; [|apply Hstop].
      destruct (IH (attempt + 1) (Some e) w2) as [l Hl].
      rewrite Hl, (sleep_sent _ _ _ Hsl). exists (rq :: l).
      unfold after. cbn [sent]. rewrite <- app_assoc. reflexivity. }
    destruct (Sdks.attempt_body _) as [v|e]; [apply Hstop|].
    destruct e as [b|[m|m|m|m]|m s r0|m|m ra|m er|m|m]; try apply Hstop;
      destruct (attempt <? Sdks.max_retries self); try apply Hstop; apply Hgo.
Qed.

Lemma loop_sends_first {U : UnicodeData}
    (srv : server) (self : Sdks.client) (rq : http_request) (n : nat)
    (attempt : Z) (le : option Sdks.exn) (w : world) :
  exists l,
    sent (snd (Sdks.request_loop srv self rq (S n) attempt le w)) = (sent w ++ rq :: l)%list.
Proof.
  cbn [Sdks.request_loop]. rewrite http_call_after.
  assert (Hstop : forall o : outcome Sdks.exn json,
             exists l, sent (snd (o, after w [rq] [])) = (sent w ++ rq :: l)%list)
    by (intros o; exists []; reflexivity).
  assert (Hgo : forall d e,
             exists l,
               sent (snd match sleep d (after w [rq] []) with
                         | Returned w2 =>
                             Sdks.request_loop srv self rq n (attempt + 1) (Some e) w2
                         | Raised e' => (Raised (Sdks.Builtin e'), after w [rq] [])
                         end) = (sent w ++ rq :: l)%list).
  { intros d e. destruct (sleep d (after w [rq] [])) as [w2|e'] eqn:Hsl; [|apply Hstop].
    destruct (loop_sent_extends srv self rq n (attempt + 1) (Some e) w2) as [l Hl].
    rewrite Hl, (sleep_sent _ _ _ Hsl). exists l.
    unfold after. cbn [sent]. rewrite <- app_assoc. reflexivity. }
  destruct (Sdks.attempt_body _) as [v|e]; [apply Hstop|].
  destruct e as [b|[m|m|m|m]|m s r0|m|m ra|m er|m|m]; try apply Hstop;
    destruct (attempt <? Sdks.max_retries self); try apply Hstop; apply Hgo.
Qed.

(** [Emails.send_batch] of [packages/sdk-python] refuses more than 100 items
    before anything is sent. *)
Lemma packages_send_batch_cap (SendEmailRequest : Type)
    (model_dump : SendEmailRequest -> json) (Model : Type)
    (model_validate : json -> outcome builtin_exn Model)
    (srv : server) (base : string) (emails : list SendEmailRequest) (w : world) :
  (100 < length emails)%nat ->
  Packages.send_batch SendEmailRequest model_dump Model model_validate srv base emails w
  = (Raised (Packages.Builtin (ValueError "Batch size cannot exceed 100 emails")), w).
Proof.
  intros H. unfold Packages.send_batch. apply Nat.ltb_lt in H. rewrite H. reflexivity.
Qed.

(** C9 (the code at the failing input): [EmailsResource.send_batch] of
    [sdks/python] has no cap: given 101 items it sends the request
    [POST /emails/batch] carrying all of them, whatever the service does. *)
Theorem C9_sdks_send_batch_sends_101_items {U : UnicodeData}
    (srv : server) (e : Sdks.SendEmailOptions)
    (w : world) :
  let emails := repeat e 101 in
  let rq := Sdks.build_request default_client "POST" "/emails/batch"
              (Some (JDict [("emails", JList (map Sdks._build_payload emails))])) in
  length emails = 101%nat
  /\ exists l, sent (snd (Sdks.send_batch srv default_client emails w))
               = (sent w ++ rq :: l)%list.
Proof.
  intros emails rq. split; [reflexivity|].
  unfold Sdks.send_batch, Sdks.post, Sdks.request. fold emails. fold rq.
  change (Z.to_nat (Sdks.max_retries default_client + 1)) with 4%nat.
  apply loop_sends_first.
Qed.

(** ** The prefix scheme ([sdks/python]) *)

Lemma hex_char_not_s (c : ascii) : is_hex_char c = true -> c <> "s"%char.
Proof. intros H ->. discriminate H. Qed.

Lemma remove_prefix_hex (s : string) :
  all_chars is_hex_char s = true -> replace_with_empty "sha256=" s = s.
Proof.
  unfold replace_with_empty. induction s as [|c s IH]; [reflexivity|].
  cbn [all_chars remove_from]. intros [Hc Hs]%andb_prop.
  cbn [String.prefix]. destruct (ascii_dec "s" c) as [E|_].
  - destruct (hex_char_not_s _ Hc). symmetry. exact E.
  - rewrite (IH Hs). reflexivity.
Qed.

Lemma compare_digest_true_iff (a b : string) :
  is_ascii a = true -> (compare_digest a b = Returned true <-> b = a).
Proof.
  intros Ha. unfold compare_digest. rewrite Ha. cbn [andb].
  destruct (is_ascii b) eqn:Hb.
  - split.
    + intros [= H]. apply String.eqb_eq in H. congruence.
    + intros ->. rewrite String.eqb_refl. reflexivity.
  - split; [discriminate|]. intros E. rewrite E, Ha in Hb. discriminate.
Qed.

(** [replace] of an occurrence found at the front. *)
Lemma prefix_split (p s : string) :
  String.prefix p s = true -> exists rest, s = p +:+ rest.
Proof.
  revert s. induction p as [|a p IH]; intros s H; [exists s; reflexivity|].
  destruct s as [|b s]; [discriminate H|]. cbn [String.prefix] in H.
  destruct (ascii_dec a b) as [<-|_]; [|discriminate H].
  destruct (IH s H) as [rest ->]. exists rest. reflexivity.
Qed.

Ltac next_mark_char c :=
  destruct c as [[] [] [] [] [] [] [] []]; try reflexivity.

Lemma without_sha256_marks_other (c : ascii) (tl : string) :
  String.prefix "sha256=" (String c tl) = false ->
  without_sha256_marks (String c tl) = String c (without_sha256_marks tl).
Proof.
  intros H. next_mark_char c.
  destruct tl as [|c tl]; [reflexivity|]. next_mark_char c.
  destruct tl as [|c tl]; [reflexivity|]. next_mark_char c.
  destruct tl as [|c tl]; [reflexivity|]. next_mark_char c.
  destruct tl as [|c tl]; [reflexivity|]. next_mark_char c.
  destruct tl as [|c tl]; [reflexivity|]. next_mark_char c.
  destruct tl as [|c tl]; [reflexivity|]. next_mark_char c.
  destruct tl; vm_compute in H; discriminate H.
Qed.

(** [signature.replace("sha256=", "")] removes every occurrence of the mark,
    read from left to right. *)
Lemma replace_with_empty_sha256 (s : string) :
  replace_with_empty "sha256=" s = without_sha256_marks s.
Proof.
  assert (H : forall n s, (String.length s <= n)%nat ->
                          replace_with_empty "sha256=" s = without_sha256_marks s).
  { clear s. induction n as [|n IH]; intros s Hn.
    - destruct s; [reflexivity|cbn [String.length] in Hn; lia].
    - destruct s as [|c tl]; [reflexivity|]. cbn [String.length] in Hn.
      unfold replace_with_empty. cbn [remove_from].
      destruct (String.prefix "sha256=" (String c tl)) eqn:Hp.
      + destruct (prefix_split _ _ Hp) as [rest E]. injection E as -> ->.
        change (replace_with_empty "sha256=" rest = without_sha256_marks rest).
        apply IH. cbn [String.length] in Hn. lia.
      + rewrite (without_sha256_marks_other _ _ Hp). f_equal.
        apply (IH tl). lia. }
  apply (H (String.length s)). lia.
Qed.

(** C10: for a payload given as text (signed as its UTF-8 bytes) and for one
    given as bytes, [verify_signature] returns true exactly when the signature
    with every occurrence of ["sha256="] removed equals the lowercase
    hexadecimal HMAC-SHA256 of the payload under the secret; in particular
    the bare digest, with no prefix, verifies. *)
Theorem C10_prefix_scheme (signature secret : string) :
  (forall text : string,
     let digest := hmac_hexdigest (encode secret) (encode text) in
     (Sdks.verify_signature (Text text) signature secret = Returned true
      <-> without_sha256_marks signature = digest)
     /\ Sdks.verify_signature (Text text) digest secret = Returned true)
  /\ (forall raw : bytes,
        let digest := hmac_hexdigest (encode secret) raw in
        (Sdks.verify_signature (Raw raw) signature secret = Returned true
         <-> without_sha256_marks signature = digest)
        /\ Sdks.verify_signature (Raw raw) digest secret = Returned true).
Proof.
  assert (H : forall p : payload,
             let digest := hmac_hexdigest (encode secret) (Sdks.payload_bytes p) in
             (Sdks.verify_signature p signature secret = Returned true
              <-> without_sha256_marks signature = digest)
             /\ Sdks.verify_signature p digest secret = Returned true).
  { intros p. unfold Sdks.verify_signature.
    generalize (hmac_hexdigest_hex (encode secret) (Sdks.payload_bytes p)).
    generalize (hmac_hexdigest (encode secret) (Sdks.payload_bytes p)).
    intros digest Hhex. cbv zeta.
    pose proof (all_chars_is_ascii _ Hhex) as Hascii. split.
    - rewrite <- replace_with_empty_sha256.
      apply compare_digest_true_iff. exact Hascii.
    - apply compare_digest_true_iff; [exact Hascii|].
      apply remove_prefix_hex. exact Hhex. }
  split; [intros text; exact (H (Text text)) | intros raw; exact (H (Raw raw))].
Qed.

(** The scheme on the test case 2 of RFC 4231: key ["Jefe"], data
    ["what do ya want for nothing?"]. *)
Lemma C10_prefix_scheme_witness :
  Sdks.verify_signature (Text "what do ya want for nothing?")
    "sha256=5bdcc146bf60754e6a042426089575c75a003f089d2739839dec58b964ec3843" "Jefe"
  = Returned true
  /\ Sdks.verify_signature (Raw (encode "what do ya want for nothing?"))
       "5bdcc146bf60754e6a042426089575c75a003f089d2739839dec58b964ec3843" "Jefe"
     = Returned true.
Proof.
  split.
  - apply (proj1 (proj1 (C10_prefix_scheme
             "sha256=5bdcc146bf60754e6a042426089575c75a003f089d2739839dec58b964ec3843"
             "Jefe") "what do ya want for nothing?")).
    vm_compute. reflexivity.
  - apply (proj1 (proj2 (C10_prefix_scheme
             "5bdcc146bf60754e6a042426089575c75a003f089d2739839dec58b964ec3843"
             "Jefe") (encode "what do ya want for nothing?"))).
    vm_compute. reflexivity.
Defined.

(** * Further properties of the code *)

#[local] Opaque hmac_hexdigest.

(** ** More on the timestamped webhook scheme *)

Lemma compare_digest_true_iff_r (a b : string) :
  is_ascii b = true -> (compare_digest a b = Returned true <-> a = b).
Proof.
  intros Hb. unfold compare_digest. rewrite Hb, andb_true_r.
  destruct (is_ascii a) eqn:Ha.
  - split.
    + intros [= H]. apply String.eqb_eq in H. exact H.
    + intros ->. rewrite String.eqb_refl. reflexivity.
  - split; [discriminate|]. intros E. rewrite E, Hb in Ha. discriminate.
Qed.


Lemma digest_is_ascii (key msg : bytes) : is_ascii (hmac_hexdigest key msg) = true.
Proof. apply all_chars_is_ascii, hmac_hexdigest_hex. Qed.



(** X2: a header signed at time [t0] verifies at time [now] exactly when
    [|now - t0| <= tolerance]: an old signature and one from the future are
    refused alike. *)
Theorem verify_signed_window {U : UnicodeData}
    (t0 now : Z) (payload : payload) (text secret : string)
    (tolerance : Z) :
  payload_text payload = Returned text ->
  verify_webhook_signature now payload (sign t0 text secret) secret tolerance
  = Returned (Z.abs (now - t0) <=? tolerance).
Proof.
  intros Htext.
  destruct (parse_signature_sign t0 text secret) as [Ht Hv].
  unfold verify_webhook_signature. rewrite Htext. cbn [bind]. rewrite Ht, Hv.
  cbn [falsy default from_option id]. rewrite py_str_nonempty, hmac_hexdigest_not_falsy.
  cbn [orb]. rewrite py_int_py_str, Z.gtb_ltb.
  destruct (Z.ltb_spec tolerance (Z.abs (now - t0))) as [Hlt|Hle].
  - symmetry. f_equal. apply Z.leb_gt. exact Hlt.
  - replace (Z.abs (now - t0) <=? tolerance) with true by (symmetry; apply Z.leb_le; lia).
    apply compare_digest_true_iff_r; [apply digest_is_ascii|reflexivity].
Qed.

Lemma verify_signed_window_witness :
  verify_webhook_signature 1700000100 (Raw [Byte.x5b; Byte.x31; Byte.x5d])
    (sign 1700000400 "[1]" "whsec") "whsec" 300
  = Returned (Z.abs (1700000100 - 1700000400) <=? 300).
Proof.
  apply (verify_signed_window 1700000400 1700000100
           (Raw [Byte.x5b; Byte.x31; Byte.x5d]) "[1]" "whsec" 300).
  reflexivity.
Defined.

(** X3: a stale or future timestamp is refused before the digest is looked
    at: whatever [v1] is (missing, wrong, not even ASCII), the result is
    false and nothing is raised. *)
Theorem verify_stale_is_false {U : UnicodeData}
    (now : Z) (payload : payload) (text signature secret : string)
    (tolerance : Z) (ts : string) (timestamp : Z) :
  payload_text payload = Returned text ->
  parse_signature signature !! "t" = Some ts ->
  py_int ts = Some timestamp ->
  tolerance < Z.abs (now - timestamp) ->
  verify_webhook_signature now payload signature secret tolerance = Returned false.
Proof.
  intros Htext Ht Hint Hlt. unfold verify_webhook_signature. rewrite Htext. cbn [bind].
  rewrite Ht. cbn [default from_option id]. rewrite Hint.
  replace (Z.abs (now - timestamp) >? tolerance) with true
    by (symmetry; rewrite Z.gtb_ltb; apply Z.ltb_lt; exact Hlt).
  destruct (_ || _); reflexivity.
Qed.

Lemma verify_stale_is_false_witness :
  verify_webhook_signature 1700000301 (Text "[1]") "t=1700000000,v1=abc" "whsec" 300
  = Returned false.
Proof.
  apply (verify_stale_is_false 1700000301 (Text "[1]") "[1]" "t=1700000000,v1=abc"
           "whsec" 300 "1700000000" 1700000000);
    [reflexivity | vm_compute; reflexivity | vm_compute; reflexivity | vm_compute; reflexivity].
Defined.



Lemma split_nonempty (c : ascii) (s : string) : exists p ps, split c s = p :: ps.
Proof.
  induction s as [|a s (p & ps & IH)]; cbn [split]; [eauto|].
  destruct (Ascii.eqb a c); [eauto|]. rewrite IH. eauto.
Qed.

Lemma split_app_sep (c : ascii) (a b : string) :
  split c (a +:+ String c b) = (split c a ++ split c b)%list.
Proof.
  induction a as [|x a IH]; simpl.
  - rewrite Ascii.eqb_refl. reflexivity.
  - rewrite IH. destruct (Ascii.eqb x c); [reflexivity|].
    destruct (split_nonempty c a) as (p & ps & ->). reflexivity.
Qed.

Lemma split_once_none (c : ascii) (s : string) :
  contains c s = false -> split_once c s = None.
Proof.
  induction s as [|a s IH]; [reflexivity|].
  cbn [contains split_once]. intros [Ha Hs]%orb_false_elim.
  rewrite Ha, (IH Hs). reflexivity.
Qed.

Lemma split_once_key_value (c : ascii) (k v : string) :
  contains c k = false -> split_once c (k +:+ String c v) = Some (k, v).
Proof.
  induction k as [|a k IH]; simpl.
  - intros _. rewrite Ascii.eqb_refl. reflexivity.
  - intros [Ha Hk]%orb_false_elim. rewrite Ha, (IH Hk). reflexivity.
Qed.

Lemma contains_app (c : ascii) (a b : string) :
  contains c (a +:+ b) = contains c a || contains c b.
Proof.
  induction a as [|x a IH]; simpl; [reflexivity|]. rewrite IH, orb_assoc. reflexivity.
Qed.

(** One more pair at the end of a header. *)
Lemma parse_signature_snoc (sig p : string) :
  contains "," p = false ->
  parse_signature (sig +:+ String "," p)
  = match split_once "=" p with
    | Some (k, v) => <[k := v]> (parse_signature sig)
    | None => parse_signature sig
    end.
Proof.
  intros Hp. unfold parse_signature.
  rewrite split_app_sep, (split_no_sep _ _ Hp), List.filter_app, omap_app, foldl_app.
  cbn [List.filter]. destruct (contains "=" p) eqn:Hc.
  - cbn [omap list_omap]. destruct (split_once "=" p) as [[k v]|]; reflexivity.
  - rewrite (split_once_none _ _ Hc). reflexivity.
Qed.

(** X5: a pair appended to a header replaces an earlier pair with the same key
    and leaves the other keys alone: of two [t=] pairs the verifier reads the
    later one. *)
Theorem parse_signature_later_pair_wins (sig k v k' : string) :
  contains "," k = false -> contains "=" k = false -> contains "," v = false ->
  parse_signature (sig +:+ "," +:+ k +:+ "=" +:+ v) !! k = Some v
  /\ (k' <> k ->
      parse_signature (sig +:+ "," +:+ k +:+ "=" +:+ v) !! k' = parse_signature sig !! k').
Proof.
  intros Hk Hke Hv.
  change (sig +:+ "," +:+ k +:+ "=" +:+ v) with (sig +:+ String "," (k +:+ String "=" v)).
  rewrite parse_signature_snoc, (split_once_key_value _ _ _ Hke).
  - split; [apply lookup_insert_eq|]. intros Hne. apply lookup_insert_ne. congruence.
  - rewrite contains_app. cbn [contains]. rewrite Hk, Hv. reflexivity.
Qed.

Lemma parse_signature_later_pair_wins_witness :
  parse_signature ("t=1,v1=ab" +:+ "," +:+ "t" +:+ "=" +:+ "2") !! "t" = Some "2"
  /\ ("v1" <> "t" ->
      parse_signature ("t=1,v1=ab" +:+ "," +:+ "t" +:+ "=" +:+ "2") !! "v1"
      = parse_signature "t=1,v1=ab" !! "v1").
Proof.
  apply (parse_signature_later_pair_wins "t=1,v1=ab" "t" "2" "v1"); reflexivity.
Defined.

(** X6: once the signature verifies, [parse_webhook_payload] calls
    [json.loads] on the payload text, exactly once; text that is not JSON then
    raises [JSONDecodeError], which is not the error of a refused signature. *)
Theorem parse_webhook_payload_verified {U : UnicodeData} (Model : Type)
    (model_validate : json -> outcome builtin_exn Model)
    (json_loads : string -> option json)
    (now : Z) (payload : payload) (signature secret : string) :
  verify_webhook_signature now payload signature secret 300 = Returned true ->
  exists text,
    payload_text payload = Returned text
    /\ parse_webhook_payload Model model_validate json_loads now payload signature secret
       = (match json_loads text with
          | None => Raised (Builtin JSONDecodeError)
          | Some data => lift (model_validate data)
          end, [JsonLoads text])
    /\ kind (Builtin JSONDecodeError) = None.
Proof.
  intros Hv. unfold parse_webhook_payload. rewrite Hv.
  unfold verify_webhook_signature in Hv.
  destruct (payload_text payload) as [text|e]; [|discriminate Hv].
  exists text. repeat split.
Qed.

Lemma parse_webhook_payload_verified_witness :
  exists text,
    payload_text (Text "[1]") = Returned text
    /\ parse_webhook_payload json Returned (fun _ => None) 1700000000 (Text "[1]")
         (sign 1700000000 "[1]" "whsec") "whsec"
       = (match (fun _ : string => @None json) text with
          | None => Raised (Builtin JSONDecodeError)
          | Some data => lift (Returned data)
          end, [JsonLoads text])
    /\ kind (Builtin JSONDecodeError) = None.
Proof.
  apply (parse_webhook_payload_verified json Returned (fun _ => None) 1700000000
           (Text "[1]") (sign 1700000000 "[1]" "whsec") "whsec").
  vm_compute. reflexivity.
Defined.

(** X7: [parse_webhook_payload] accepts a delivery signed at [t0] for 300
    seconds either side of [t0], whatever tolerance the caller has in mind:
    within the window the payload is parsed, outside it the call raises the
    401 [MailatError] without parsing. *)
Theorem parse_webhook_payload_window {U : UnicodeData} (Model : Type)
    (model_validate : json -> outcome builtin_exn Model)
    (json_loads : string -> option json)
    (t0 now : Z) (payload : payload) (text secret : string) :
  payload_text payload = Returned text ->
  parse_webhook_payload Model model_validate json_loads now payload
    (sign t0 text secret) secret
  = if Z.abs (now - t0) <=? 300
    then (match json_loads text with
          | None => Raised (Builtin JSONDecodeError)
          | Some data => lift (model_validate data)
          end, [JsonLoads text])
    else (Raised (MailatError (JStr "Invalid webhook signature") 401 JNull), []).
Proof.
  intros Htext. unfold parse_webhook_payload.
  rewrite (verify_signed_window t0 now payload text secret 300 Htext), Htext.
  destruct (Z.abs (now - t0) <=? 300); reflexivity.
Qed.

Lemma parse_webhook_payload_window_witness :
  parse_webhook_payload json Returned (fun _ => Some (JList [JInt 1])) 1700000301
    (Text "[1]") (sign 1700000000 "[1]" "whsec") "whsec"
  = if Z.abs (1700000301 - 1700000000) <=? 300
    then (match (fun _ : string => Some (JList [JInt 1])) "[1]" with
          | None => Raised (Builtin JSONDecodeError)
          | Some data => lift (Returned data)
          end, [JsonLoads "[1]"])
    else (Raised (MailatError (JStr "Invalid webhook signature") 401 JNull), []).
Proof.
  apply (parse_webhook_payload_window json Returned (fun _ => Some (JList [JInt 1]))
           1700000000 1700000301 (Text "[1]") "[1]" "whsec").
  reflexivity.
Defined.

(** ** More on the retry loop *)

Lemma after_nil (w : world) : after w [] [] = w.
Proof. destruct w. unfold after. cbn [sent slept]. rewrite !app_nil_r. reflexivity. Qed.

(** What one run of the loop can do to the world: [k] copies of the same
    request with [k - 1] sleeps between them. *)
Lemma loop_shape {U : UnicodeData}
    (srv : server) (self : Sdks.client) (rq : http_request) (n : nat) :
  forall attempt le w,
    Sdks.max_retries self + 1 - attempt <= Z.of_nat n ->
    exists k ds,
      snd (Sdks.request_loop srv self rq n attempt le w) = after w (repeat rq k) ds
      /\ (k <= n)%nat /\ ((0 < n)%nat -> (0 < k)%nat)
      /\ length ds = (k - 1)%nat /\ Forall (fun d => 0 <= d) ds.
Proof.
  induction n as [|n IH]; intros attempt le w Hinv; cbn [Sdks.request_loop].
  - exists 0%nat, []. cbn [snd repeat]. rewrite after_nil. repeat split; auto; lia.
  - rewrite http_call_after.
    assert (Hstop : forall o : outcome Sdks.exn json,
               exists k ds,
                 snd (o, after w [rq] []) = after w (repeat rq k) ds
                 /\ (k <= S n)%nat /\ ((0 < S n)%nat -> (0 < k)%nat)
                 /\ length ds = (k - 1)%nat /\ Forall (fun d => 0 <= d) ds).
    { intros o. exists 1%nat, []. repeat split; auto; lia. }
    assert (Hgo : attempt < Sdks.max_retries self -> forall d e,
               exists k ds,
                 snd match sleep d (after w [rq] []) with
                     | Returned w2 =>
                         Sdks.request_loop srv self rq n (attempt + 1) (Some e) w2
                     | Raised e' => (Raised (Sdks.Builtin e'), after w [rq] [])
                     end = after w (repeat rq k) ds
                 /\ (k <= S n)%nat /\ ((0 < S n)%nat -> (0 < k)%nat)
                 /\ length ds = (k - 1)%nat /\ Forall (fun d => 0 <= d) ds).
    { intros Hlt d e. unfold sleep. destruct (_ || _); [apply Hstop|].
      destruct (Z.ltb_spec d 0) as [Hd|Hd]; [apply Hstop|].
      destruct (IH (attempt + 1) (Some e)
                  (World (sent (after w [rq] [])) (slept (after w [rq] []) ++ [d])))
        as (k & ds & Hk & Hle & Hpos & Hlen & Hall); [lia|].
      exists (S k), (d :: ds). rewrite Hk. repeat split.
      - unfold after. cbn [sent slept repeat]. rewrite app_nil_r, <- !app_assoc. reflexivity.
      - lia.
      - lia.
      - cbn [length]. assert (0 < k)%nat by (apply Hpos; lia). lia.
      - constructor; assumption. }
    destruct (Sdks.attempt_body _) as [v|e]; [apply Hstop|].
    destruct e as [b|[m|m|m|m]|m s r0|m|m ra|m er|m|m]; try apply Hstop;
      destruct (Z.ltb_spec attempt (Sdks.max_retries self)); try apply Hstop; apply Hgo;
      assumption.
Qed.

(** X8: whatever the service does, one call of [request] sends the same
    request [k] times with [k <= max_retries + 1], sleeps exactly [k - 1]
    times, never for a negative duration, and sends at least once when
    [max_retries >= 0]. *)
Theorem request_attempt_bound {U : UnicodeData} (srv : server) (self : Sdks.client)
    (method endpoint : string) (body : option json) (w : world) :
  let rq := Sdks.build_request self method endpoint body in
  exists k ds,
    snd (Sdks.request srv self method endpoint body w) = after w (repeat rq k) ds
    /\ Z.of_nat k <= Z.max 0 (Sdks.max_retries self + 1)
    /\ (0 <= Sdks.max_retries self -> (1 <= k)%nat)
    /\ length ds = (k - 1)%nat
    /\ Forall (fun d => 0 <= d) ds.
Proof.
  intros rq. unfold Sdks.request. fold rq.
  destruct (loop_shape srv self rq (Z.to_nat (Sdks.max_retries self + 1)) 0 None w)
    as (k & ds & Hk & Hle & Hpos & Hlen & Hall); [lia|].
  exists k, ds. repeat split; try assumption; lia.
Qed.

(** X9: with a negative [max_retries] the loop body never runs: nothing is
    sent and [request] raises [MailatError("Unknown error occurred")], whose
    status code is the default 500. *)
Theorem request_negative_max_retries {U : UnicodeData} (srv : server) (self : Sdks.client)
    (method endpoint : string) (body : option json) (w : world) :
  Sdks.max_retries self < 0 ->
  Sdks.request srv self method endpoint body w
  = (Raised (Sdks.MailatError (JStr "Unknown error occurred") 500 None), w).
Proof.
  intros H. unfold Sdks.request.
  replace (Z.to_nat (Sdks.max_retries self + 1)) with 0%nat by lia. reflexivity.
Qed.

Lemma request_negative_max_retries_witness :
  Sdks.request (constant_server (Response 200 None []))
    (Sdks.Client Sdks.DEFAULT_BASE_URL (-1)) "GET" "/emails" None world0
  = (Raised (Sdks.MailatError (JStr "Unknown error occurred") 500 None), world0).
Proof.
  apply (request_negative_max_retries (constant_server (Response 200 None []))
           (Sdks.Client Sdks.DEFAULT_BASE_URL (-1)) "GET" "/emails" None world0).
  reflexivity.
Defined.

Lemma map_seq_succ {A} (f : nat -> A) (n : nat) :
  map f (seq 0 (S n)) = f 0%nat :: map (fun i => f (S i)) (seq 0 n).
Proof. cbn [seq map]. rewrite <- seq_shift, map_map. reflexivity. Qed.

Lemma loop_all_transient {U : UnicodeData} (srv : server) (self : Sdks.client)
    (rq : http_request) :
  (forall k, transient (srv k rq) = true) ->
  Sdks.max_retries self <= 34 ->
  forall n attempt le w,
    0 <= attempt ->
    Z.of_nat n = Sdks.max_retries self - attempt ->
    exists h,
      transient (Raised h) = true
      /\ Sdks.request_loop srv self rq (S n) attempt le w
         = (Raised (Sdks.MailatError (JStr ("Network error: " +:+ httpx_str h)) 0 None),
            after w (repeat rq (S n)) (map (fun i => 2 ^ (attempt + Z.of_nat i)) (seq 0 n))).
Proof.
  intros Hall Hmax. induction n as [|n IH]; intros attempt le w Hpos Hn.
  - destruct (transient_raised _ (Hall (length (sent w)))) as [h E].
    exists h. split; [rewrite <- E; apply Hall|].
    apply loop_transient_exhausted; [exact E | rewrite <- E; apply Hall | lia].
  - destruct (transient_raised _ (Hall (length (sent w)))) as [h0 E0].
    rewrite (loop_transient_retry _ _ _ _ _ _ _ h0);
      [ | exact E0 | rewrite <- E0; apply Hall | lia | apply pow2_short; lia ].
    destruct (IH (attempt + 1) (Some (Sdks.Httpx h0)) (after w [rq] [2 ^ attempt]))
      as (h & Hh & ->); [lia|lia|].
    exists h. split; [exact Hh|]. rewrite after_after. f_equal. f_equal.
    rewrite (map_seq_succ (fun i => 2 ^ (attempt + Z.of_nat i))).
    cbn [app]. rewrite Z.add_0_r. f_equal.
    apply map_ext. intros i. f_equal. lia.
Qed.

Lemma loop_all_transient_overflow {U : UnicodeData} (srv : server) (self : Sdks.client)
    (rq : http_request) :
  (forall k, transient (srv k rq) = true) ->
  35 <= Sdks.max_retries self ->
  forall n attempt le w (more : nat),
    0 <= attempt ->
    Z.of_nat n = 34 - attempt ->
    Sdks.request_loop srv self rq (S n + more) attempt le w
    = (Raised (Sdks.Builtin OverflowError),
       after w (repeat rq (S n)) (map (fun i => 2 ^ (attempt + Z.of_nat i)) (seq 0 n))).
Proof.
  intros Hall Hmax. induction n as [|n IH]; intros attempt le w more Hpos Hn.
  - destruct (transient_raised _ (Hall (length (sent w)))) as [h E].
    apply (loop_transient_overflow _ _ _ _ _ _ _ h);
      [exact E | rewrite <- E; apply Hall | lia | apply pow2_long; lia].
  - destruct (transient_raised _ (Hall (length (sent w)))) as [h0 E0].
    change (S (S n) + more)%nat with (S (S n + more)).
    rewrite (loop_transient_retry _ _ _ _ _ _ _ h0);
      [ | exact E0 | rewrite <- E0; apply Hall | lia | apply pow2_short; lia ].
    rewrite IH by lia. rewrite after_after. f_equal. f_equal.
    rewrite (map_seq_succ (fun i => 2 ^ (attempt + Z.of_nat i))).
    cbn [app]. rewrite Z.add_0_r. f_equal.
    apply map_ext. intros i. f_equal. lia.
Qed.

(** X10: a transport that fails every call with a timeout or network error.
    For [0 <= max_retries <= 34] it is tried [max_retries + 1] times, with
    the sleeps [1; 2; 4; ...; 2^(max_retries - 1)] in between, and [request]
    then raises the ["Network error: ..."] [MailatError] with status code 0.
    For [max_retries >= 35] the sleep of attempt 34, [2^34] seconds, is more
    than [time.sleep] takes: after 35 requests and the sleeps
    [1; 2; ...; 2^33], [request] raises [OverflowError]. *)
Theorem request_exhausts_retries {U : UnicodeData} (srv : server) (self : Sdks.client)
    (method endpoint : string) (body : option json) (w : world) :
  let rq := Sdks.build_request self method endpoint body in
  let m := Z.to_nat (Sdks.max_retries self) in
  0 <= Sdks.max_retries self ->
  (forall k, transient (srv k rq) = true) ->
  (Sdks.max_retries self <= 34 ->
   exists h,
     transient (Raised h) = true
     /\ Sdks.request srv self method endpoint body w
        = (Raised (Sdks.MailatError (JStr ("Network error: " +:+ httpx_str h)) 0 None),
           after w (repeat rq (S m)) (backoff_sleeps m)))
  /\ (35 <= Sdks.max_retries self ->
      Sdks.request srv self method endpoint body w
      = (Raised (Sdks.Builtin OverflowError), after w (repeat rq 35) (backoff_sleeps 34))).
Proof.
  intros rq m Hmax Hall. unfold Sdks.request. fold rq.
  rewrite (first_attempt _ Hmax). fold m. split.
  - intros Hle.
    destruct (loop_all_transient srv self rq Hall Hle m 0 None w) as (h & Hh & ->); [lia|lia|].
    exists h. split; [exact Hh|]. reflexivity.
  - intros Hge.
    replace (S m) with (S 34 + (m - 34))%nat by lia.
    rewrite (loop_all_transient_overflow srv self rq Hall Hge 34 0 None w) by lia.
    reflexivity.
Qed.

Lemma request_exhausts_retries_witness :
  let self := Sdks.Client Sdks.DEFAULT_BASE_URL 5 in
  let patient := Sdks.Client Sdks.DEFAULT_BASE_URL 40 in
  let rq := Sdks.build_request self "GET" "/emails" None in
  (exists h,
     transient (Raised h) = true
     /\ Sdks.request dead_server self "GET" "/emails" None world0
        = (Raised (Sdks.MailatError (JStr ("Network error: " +:+ httpx_str h)) 0 None),
           after world0 (repeat rq 6) (backoff_sleeps 5)))
  /\ Sdks.request dead_server patient "GET" "/emails" None world0
     = (Raised (Sdks.Builtin OverflowError), after world0 (repeat rq 35) (backoff_sleeps 34)).
Proof.
  intros self patient rq. split.
  - apply (request_exhausts_retries dead_server self "GET" "/emails" None world0);
      [vm_compute; congruence | intros k; reflexivity | vm_compute; congruence].
  - apply (request_exhausts_retries dead_server patient "GET" "/emails" None world0);
      [vm_compute; congruence | intros k; reflexivity | vm_compute; congruence].
Defined.





(** ** More on error responses *)

Lemma not_success_negb (r : response) : is_success r = false -> negb (is_success r) = true.
Proof. intros ->. reflexivity. Qed.

(** X12: an error response other than 429 (body a JSON object or not JSON) is
    never retried: after that one request [request] raises an exception no
    [except] clause handles, whose status code is the response's, except that
    every status from 500 up is reported as 500. *)
Theorem request_error_not_retried {U : UnicodeData} (srv : server) (self : Sdks.client)
    (method endpoint : string) (body : option json) (w : world) (r : response) :
  let rq := Sdks.build_request self method endpoint body in
  0 <= Sdks.max_retries self ->
  srv (length (sent w)) rq = Returned r ->
  is_success r = false ->
  status_code r <> 429 ->
  is_object (parsed_body r) = true ->
  exists e,
    Sdks.request srv self method endpoint body w = (Raised e, after w [rq] [])
    /\ caught e = false
    /\ Sdks.exn_status_code e = Some (reported_status (status_code r)).
Proof.
  intros rq Hmax Hsrv Hns H429 Ho.
  assert (Hbody : exists e,
             Sdks.attempt_body (Returned r) = Raised e /\ caught e = false
             /\ Sdks.exn_status_code e = Some (reported_status (status_code r))).
  { rewrite attempt_body_response, (not_success_negb _ Hns).
    unfold Sdks._handle_error, reported_status.
    destruct (parsed_body r) as [| | | | | |d]; try discriminate Ho.
    cbn [json_get Sdks.lift bind].
    destruct (Z.eqb_spec (status_code r) 401) as [E|_]; [rewrite E; eauto|].
    destruct (Z.eqb_spec (status_code r) 404) as [E|_]; [rewrite E; eauto|].
    destruct (Z.eqb_spec (status_code r) 429) as [E|_]; [contradiction|].
    destruct (Z.eqb_spec (status_code r) 400) as [E|_]; [rewrite E; eauto|].
    destruct (status_code r >=? 500); eauto. }
  destruct Hbody as (e & He & Hc & Hst). exists e. split; [|auto].
  unfold Sdks.request. fold rq. rewrite (first_attempt _ Hmax).
  apply loop_propagates; [rewrite Hsrv; exact He | exact Hc].
Qed.

Lemma request_error_not_retried_witness :
  let r := Response 503 None [] in
  let rq := Sdks.build_request default_client "GET" "/emails" None in
  exists e,
    Sdks.request (constant_server r) default_client "GET" "/emails" None world0
    = (Raised e, after world0 [rq] [])
    /\ caught e = false
    /\ Sdks.exn_status_code e = Some (reported_status 503).
Proof.
  intros r rq.
  apply (request_error_not_retried (constant_server r) default_client
           "GET" "/emails" None world0 r);
    [vm_compute; congruence | reflexivity | reflexivity | vm_compute; congruence
    | reflexivity].
Defined.

(** X13: a 400 response with an object body raises [ValidationError] carrying
    the body's [errors]; when that field is missing, null or empty the
    exception carries the empty dict. *)
Theorem request_validation_error {U : UnicodeData} (srv : server) (self : Sdks.client)
    (method endpoint : string) (body : option json) (w : world) (r : response)
    (d : list (string * json)) :
  let rq := Sdks.build_request self method endpoint body in
  0 <= Sdks.max_retries self ->
  srv (length (sent w)) rq = Returned r ->
  status_code r = 400 ->
  parsed_body r = JDict d ->
  Sdks.request srv self method endpoint body w
  = (Raised (Sdks.ValidationError (error_message (JDict d))
               (match assoc "errors" d with
                | Some v => if truthy v then v else JDict []
                | None => JDict []
                end)),
     after w [rq] []).
Proof.
  intros rq Hmax Hsrv Hs Hd.
  unfold Sdks.request. fold rq. rewrite (first_attempt _ Hmax).
  apply loop_propagates; [|reflexivity].
  rewrite Hsrv, attempt_body_response. unfold is_success. rewrite Hs, Hd.
  cbn [Z.leb Z.compare Pos.compare Pos.compare_cont andb negb].
  unfold Sdks._handle_error. cbn [json_get Sdks.lift bind Z.eqb Pos.eqb error_message].
  destruct (assoc "errors" d) as [v|]; reflexivity.
Qed.

Lemma request_validation_error_witness :
  let d := [("message", JStr "Invalid"); ("errors", JFloat 0%float)] in
  let rq := Sdks.build_request default_client "POST" "/emails" None in
  Sdks.request (constant_server (Response 400 (Some (JDict d)) [])) default_client
    "POST" "/emails" None world0
  = (Raised (Sdks.ValidationError (error_message (JDict d))
               (match assoc "errors" d with
                | Some v => if truthy v then v else JDict []
                | None => JDict []
                end)),
     after world0 [rq] []).
Proof.
  intros d rq.
  apply (request_validation_error (constant_server (Response 400 (Some (JDict d)) []))
           default_client "POST" "/emails" None world0 (Response 400 (Some (JDict d)) []) d);
    [vm_compute; congruence | reflexivity | reflexivity | reflexivity].
Defined.



(** X15: a transport exception that is neither a timeout nor a network error
    (a protocol error, too many redirects, an invalid URL) is not retried and
    not wrapped: it leaves [request] as it is after the one request. *)
Theorem request_other_transport_error {U : UnicodeData} (srv : server) (self : Sdks.client)
    (method endpoint : string) (body : option json) (w : world) (h : httpx_exn) :
  let rq := Sdks.build_request self method endpoint body in
  0 <= Sdks.max_retries self ->
  srv (length (sent w)) rq = Raised h ->
  transient (Raised h) = false ->
  Sdks.request srv self method endpoint body w = (Raised (Sdks.Httpx h), after w [rq] []).
Proof.
  intros rq Hmax Hsrv Ht. unfold Sdks.request. fold rq. rewrite (first_attempt _ Hmax).
  apply loop_propagates; [rewrite Hsrv; reflexivity|].
  destruct h; try discriminate Ht; reflexivity.
Qed.

Lemma request_other_transport_error_witness :
  let rq := Sdks.build_request default_client "GET" "/emails" None in
  Sdks.request (fun _ _ => Raised (OtherRequestError "protocol error")) default_client
    "GET" "/emails" None world0
  = (Raised (Sdks.Httpx (OtherRequestError "protocol error")), after world0 [rq] []).
Proof.
  intros rq.
  apply (request_other_transport_error (fun _ _ => Raised (OtherRequestError "protocol error"))
           default_client "GET" "/emails" None world0 (OtherRequestError "protocol error"));
    [vm_compute; congruence | reflexivity | reflexivity].
Defined.

(** ** Request bodies *)

Lemma keys_app (a b : list (string * json)) : keys (a ++ b) = (keys a ++ keys b)%list.
Proof. apply map_app. Qed.

(** An optional field adds its key or nothing. *)
Lemma keys_when_sublist (b : bool) (k : string) (v : json)
    (rest : list (string * json)) (full : list string) :
  keys rest `sublist_of` full ->
  keys (Sdks.when b (k, v) ++ rest) `sublist_of` k :: full.
Proof.
  intros H. destruct b; cbn [Sdks.when app keys map fst];
    [apply sublist_skip | apply sublist_cons]; exact H.
Qed.

Lemma not_null_when (b : bool) (k : string) (v : json) (rest : list (string * json)) :
  v <> JNull ->
  Forall (fun kv => snd kv <> JNull) rest ->
  Forall (fun kv => snd kv <> JNull) (Sdks.when b (k, v) ++ rest).
Proof. intros Hv H. destruct b; cbn [Sdks.when app]; [constructor|]; assumption. Qed.

Lemma in_keys_when (b : bool) (k : string) (v : json) (k' : string)
    (rest : list (string * json)) :
  In k' (keys (Sdks.when b (k, v) ++ rest)) <-> (b = true /\ k' = k) \/ In k' (keys rest).
Proof.
  destruct b; cbn [Sdks.when app keys map fst In]; split; intros H.
  - destruct H as [<-|H]; auto.
  - destruct H as [[_ ->]|H]; auto.
  - auto.
  - destruct H as [[H _]|H]; [discriminate|exact H].
Qed.

Ltac optional_keys :=
  repeat (apply keys_when_sublist); try apply sublist_nil_l; try reflexivity.

Ltac optional_values :=
  repeat (apply not_null_when; [discriminate|]); try solve [constructor].

(** X16: [Emails.send] of [packages/sdk-python] sends exactly one
    [POST <base>/emails].  The body starts with [from], [to], [subject], its
    keys are distinct, no value is null (an optional argument that is [None]
    or empty is left out), and the idempotency key travels only as the
    [Idempotency-Key] header, present exactly when the key is a non-empty
    string. *)
Theorem emails_send_request (Model : Type)
    (model_validate : json -> outcome builtin_exn Model)
    (srv : server) (base : string) (a : Emails.send_args) (w : world) :
  let data := Emails.send_data a in
  let hdrs := Emails.send_headers a in
  snd (Emails.send Model model_validate srv base a w)
  = after w [HttpRequest "POST" (base +:+ "/emails") (Some (JDict data)) hdrs] []
  /\ firstn 3 (keys data) = ["from"; "to"; "subject"]
  /\ NoDup (keys data)
  /\ Forall (fun kv => snd kv <> JNull) data
  /\ (In "html" (keys data) <-> exists h, Emails.html a = Some h /\ h <> "")
  /\ (forall k, hdrs = [("Idempotency-Key", k)]
                <-> Emails.idempotency_key a = Some k /\ k <> "")
  /\ (hdrs = [] \/ exists k, hdrs = [("Idempotency-Key", k)]).
Proof.
  intros data hdrs. split; [|split; [|split; [|split; [|split; [|split]]]]].
  - unfold Emails.send, Packages._request. rewrite http_call_after. reflexivity.
  - reflexivity.
  - apply (sublist_NoDup _
             ["from"; "to"; "subject"; "html"; "text"; "cc"; "bcc"; "replyTo";
              "templateId"; "variables"; "tags"; "metadata"; "scheduledFor"]).
    + repeat (constructor; [cbn [In elem_of]; rewrite ?list_elem_of_In; cbn [In];
                            intuition discriminate|]).
      constructor.
    + subst data. unfold Emails.send_data. cbn [app keys map fst].
      do 3 apply sublist_skip. change (map fst) with keys.
      rewrite <- (app_nil_r (Sdks.when _ ("scheduledFor", _))). optional_keys.
  - subst data. unfold Emails.send_data. cbn [app].
    do 3 (constructor; [discriminate|]).
    rewrite <- (app_nil_r (Sdks.when _ ("scheduledFor", _))). optional_values.
  - subst data. unfold Emails.send_data. cbn [app keys map fst In].
    change (map fst) with keys. rewrite in_keys_when.
    split.
    + intros [H|[H|[H|[[H _]|H]]]]; try discriminate H.
      * destruct (Emails.html a) as [h|]; [|discriminate H]. exists h. split; [reflexivity|].
        intros ->. discriminate H.
      * exfalso. revert H.
        rewrite <- (app_nil_r (Sdks.when _ ("scheduledFor", _))), !in_keys_when.
        cbn [keys map In]. intuition discriminate.
    + intros (h & -> & Hh). right; right; right; left. split; [|reflexivity].
      cbn [Sdks.truthy_str]. destruct (String.eqb_spec h ""); [contradiction|reflexivity].
  - intros k. subst hdrs. unfold Emails.send_headers.
    destruct (Emails.idempotency_key a) as [k0|]; cbn [Sdks.truthy_str default from_option id].
    + destruct (String.eqb_spec k0 "") as [->|Hne]; cbn [negb].
      * split; [discriminate|]. intros [[= <-] H]. contradiction.
      * split; [intros [= <-]; auto|]. intros [[= <-] _]. reflexivity.
    + split; [discriminate|]. intros [[=] _].
  - subst hdrs. unfold Emails.send_headers.
    destruct (Sdks.truthy_str _); eauto.
Qed.

Ltac exists_email :=
  match goal with
  | |- is_address_object (Sdks._normalize_address (Sdks.AddrStr ?s)) =>
      exists s; left; reflexivity
  | |- is_address_object (Sdks._normalize_address (Sdks.AddrModel ?em None)) =>
      exists em; left; reflexivity
  | |- is_address_object (Sdks._normalize_address (Sdks.AddrModel ?em (Some ?n))) =>
      exists em; right; exists n; reflexivity
  end.

(** X17: every item [EmailsResource.send_batch] puts in the batch is an object
    that starts with [to] and [subject], has distinct keys and no null value;
    an email given only a recipient and a subject is marshalled to exactly
    those two fields. *)
Theorem build_payload_shape (e : Sdks.SendEmailOptions) :
  exists d,
    Sdks._build_payload e = JDict d
    /\ firstn 2 (keys d) = ["to"; "subject"]
    /\ NoDup (keys d)
    /\ Forall (fun kv => snd kv <> JNull) d
    /\ (Sdks.html e = None -> Sdks.text e = None -> Sdks.cc e = None ->
        Sdks.bcc e = None -> Sdks.template_id e = None -> Sdks.template_data e = None ->
        Sdks.tags e = None -> Sdks.metadata e = None ->
        d = [("to", Sdks._normalize_addresses (Sdks.to e)); ("subject", JStr (Sdks.subject e))]).
Proof.
  unfold Sdks._build_payload. eexists. split; [reflexivity|].
  split; [reflexivity|]. split; [|split].
  - apply (sublist_NoDup _
             ["to"; "subject"; "htmlBody"; "textBody"; "cc"; "bcc"; "templateId";
              "variables"; "tags"; "metadata"]).
    + repeat (constructor; [rewrite ?list_elem_of_In; cbn [In]; intuition discriminate|]).
      constructor.
    + cbn [app keys map fst]. do 2 apply sublist_skip. change (map fst) with keys.
      rewrite <- (app_nil_r (Sdks.when _ ("metadata", _))). optional_keys.
  - cbn [app]. constructor; [destruct (Sdks.to e); discriminate|].
    constructor; [discriminate|].
    rewrite <- (app_nil_r (Sdks.when _ ("metadata", _))).
    repeat (apply not_null_when;
            [first [discriminate | destruct (default _ _); discriminate]|]).
    constructor.
  - intros -> -> -> -> -> -> -> ->. reflexivity.
Qed.

Lemma build_payload_shape_witness :
  let e := {| Sdks.to := Sdks.One (Sdks.AddrStr "a@b.com"); Sdks.subject := "S";
              Sdks.html := None; Sdks.text := None; Sdks.cc := None; Sdks.bcc := None;
              Sdks.template_id := None; Sdks.template_data := None;
              Sdks.tags := None; Sdks.metadata := None |} in
  exists d,
    Sdks._build_payload e = JDict d
    /\ d = [("to", JList [JDict [("email", JStr "a@b.com")]]); ("subject", JStr "S")].
Proof.
  intros e. destruct (build_payload_shape e) as (d & Hd & _ & _ & _ & Hmin).
  exists d. split; [exact Hd|]. apply Hmin; reflexivity.
Defined.

(** X18: [_normalize_addresses] always yields a list with one object per
    address, each with [email] first and a [name] only when one was given; a
    bare string and an [EmailAddress] without a name normalise alike. *)
Theorem normalize_addresses_shape (x : Sdks.addresses) :
  (exists l, Sdks._normalize_addresses x = JList l
             /\ length l = address_count x
             /\ Forall is_address_object l)
  /\ (forall s, Sdks._normalize_address (Sdks.AddrStr s)
                = Sdks._normalize_address (Sdks.AddrModel s None)).
Proof.
  assert (Hone : forall a, is_address_object (Sdks._normalize_address a)).
  { intros [s|em [n|]]; exists_email. }
  split; [|reflexivity].
  destruct x as [a|l]; cbn [Sdks._normalize_addresses address_count].
  - eexists. split; [reflexivity|]. split; [reflexivity|]. constructor; [apply Hone|constructor].
  - eexists. split; [reflexivity|]. split; [apply length_map|].
    induction l as [|a l IH]; cbn [map]; constructor; [apply Hone|exact IH].
Qed.

(** ** Batch size and the one-shot transport of [packages/sdk-python] *)

Lemma app_cons_neq {A} (l : list A) (x : A) : (l ++ [x])%list <> l.
Proof.
  intros H. apply (f_equal (@length A)) in H. rewrite length_app in H.
  cbn [length] in H. lia.
Qed.

(** X19: [Emails.send_batch] sends nothing exactly when it is given more than
    100 items (100 are accepted); otherwise it sends one
    [POST <base>/emails/batch] whose [emails] list has the items in order. *)
Theorem packages_send_batch_boundary (SendEmailRequest : Type)
    (model_dump : SendEmailRequest -> json) (Model : Type)
    (model_validate : json -> outcome builtin_exn Model)
    (srv : server) (base : string) (emails : list SendEmailRequest) (w : world) :
  let result := Packages.send_batch SendEmailRequest model_dump Model model_validate
                  srv base emails w in
  (sent (snd result) = sent w <-> (100 < length emails)%nat)
  /\ ((length emails <= 100)%nat ->
      snd result
      = after w [HttpRequest "POST" (base +:+ "/emails/batch")
                   (Some (JDict [("emails", JList (map model_dump emails))])) []] []).
Proof.
  intros result. subst result. unfold Packages.send_batch, Packages._request.
  rewrite http_call_after.
  destruct (Nat.ltb_spec 100 (length emails)) as [Hgt|Hle]; cbn [snd].
  - split; [split; auto|]. intros H. lia.
  - split; [|reflexivity]. split; [|lia].
    unfold after. cbn [sent]. intros H. destruct (app_cons_neq _ _ H).
Qed.

Lemma packages_send_batch_boundary_witness :
  snd (Packages.send_batch nat (fun n => JInt (Z.of_nat n)) json Returned
         (constant_server (Response 200 None [])) "https://api.mailat.co/api/v1"
         (seq 1 100) world0)
  = after world0
      [HttpRequest "POST" ("https://api.mailat.co/api/v1" +:+ "/emails/batch")
         (Some (JDict [("emails", JList (map (fun n => JInt (Z.of_nat n)) (seq 1 100)))]))
         []] [].
Proof.
  apply (packages_send_batch_boundary nat (fun n => JInt (Z.of_nat n)) json Returned
           (constant_server (Response 200 None [])) "https://api.mailat.co/api/v1"
           (seq 1 100) world0).
  rewrite length_seq. lia.
Defined.

(** X20: [Mailat._request] of [packages/sdk-python] tries once, whatever
    happens: one request, no sleep.  A timeout becomes
    [MailatError("Request timeout", 408)], any other [httpx.RequestError]
    becomes a [MailatError] with status 0 and the error's text; a response
    whose body is not JSON raises [JSONDecodeError] whatever its status. *)
Theorem packages_request_single_attempt (srv : server) (method path base : string)
    (data : option json) (hdrs : list (string * string)) (w : world) :
  let rq := HttpRequest method (base +:+ path) data hdrs in
  let result := Packages._request srv method path base data hdrs w in
  snd result = after w [rq] []
  /\ (forall m, srv (length (sent w)) rq = Raised (TimeoutException m) ->
                fst result = Raised (Packages.MailatError (JStr "Request timeout") 408 JNull))
  /\ (forall h, srv (length (sent w)) rq = Raised h ->
                h = NetworkError (httpx_str h) \/ h = OtherRequestError (httpx_str h) ->
                fst result = Raised (Packages.MailatError (JStr (httpx_str h)) 0 JNull))
  /\ (forall r, srv (length (sent w)) rq = Returned r -> json_body r = None ->
                fst result = Raised (Packages.Builtin JSONDecodeError)).
Proof.
  intros rq result. subst result. unfold Packages._request. fold rq.
  rewrite http_call_after. split; [reflexivity|]. cbn [fst].
  split; [|split].
  - intros m ->. reflexivity.
  - intros h -> [->| ->]; reflexivity.
  - intros r -> ->. reflexivity.
Qed.

Lemma packages_request_single_attempt_witness :
  fst (Packages._request (constant_server (Response 204 None [])) "DELETE" "/emails/42"
         "https://api.mailat.co/api/v1" None [] world0)
  = Raised (Packages.Builtin JSONDecodeError).
Proof.
  apply (packages_request_single_attempt (constant_server (Response 204 None []))
           "DELETE" "/emails/42" "https://api.mailat.co/api/v1" None [] world0)
    with (r := Response 204 None []); reflexivity.
Defined.

(** ** More on the prefix scheme *)

Lemma prefixed_digest_verifies (payload : payload) (secret : string) :
  Sdks.verify_signature payload
    ("sha256=" +:+ hmac_hexdigest (encode secret) (Sdks.payload_bytes payload)) secret
  = Returned true.
Proof.
  unfold Sdks.verify_signature.
  generalize (hmac_hexdigest_hex (encode secret) (Sdks.payload_bytes payload)).
  generalize (hmac_hexdigest (encode secret) (Sdks.payload_bytes payload)).
  intros digest Hhex. cbv zeta.
  apply compare_digest_true_iff; [apply all_chars_is_ascii; exact Hhex|].
  rewrite replace_with_empty_sha256.
  change (without_sha256_marks ("sha256=" +:+ digest)) with (without_sha256_marks digest).
  rewrite <- replace_with_empty_sha256. apply (remove_prefix_hex _ Hhex).
Qed.

(** X21: the documented form of the signature, ["sha256="] followed by the
    lowercase hexadecimal HMAC-SHA256 of the payload under the secret,
    verifies: for a payload given as text the digest is that of its UTF-8
    bytes, for one given as bytes that of the bytes themselves. *)
Theorem prefix_scheme_prefixed_digest (secret : string) :
  (forall text : string,
     Sdks.verify_signature (Text text)
       ("sha256=" +:+ hmac_hexdigest (encode secret) (encode text)) secret
     = Returned true)
  /\ (forall raw : bytes,
        Sdks.verify_signature (Raw raw)
          ("sha256=" +:+ hmac_hexdigest (encode secret) raw) secret
        = Returned true).
Proof.
  split; [intros text; apply (prefixed_digest_verifies (Text text))
         | intros raw; apply (prefixed_digest_verifies (Raw raw))].
Qed.

(** The documented form on the test case 2 of RFC 4231. *)
Lemma prefix_scheme_prefixed_digest_witness :
  Sdks.verify_signature (Text "what do ya want for nothing?")
    "sha256=5bdcc146bf60754e6a042426089575c75a003f089d2739839dec58b964ec3843" "Jefe"
  = Returned true
  /\ Sdks.verify_signature (Raw (encode "what do ya want for nothing?"))
       "sha256=5bdcc146bf60754e6a042426089575c75a003f089d2739839dec58b964ec3843" "Jefe"
     = Returned true.
Proof.
  rewrite <- hmac_rfc4231_case2. split.
  - apply (proj1 (prefix_scheme_prefixed_digest "Jefe") "what do ya want for nothing?").
  - apply (proj2 (prefix_scheme_prefixed_digest "Jefe")
             (encode "what do ya want for nothing?")).
Defined.

Lemma prefix_scheme_outcome (payload : payload) (signature secret : string) :
  Sdks.verify_signature payload signature secret
  = if is_ascii (without_sha256_marks signature)
    then Returned (String.eqb (hmac_hexdigest (encode secret) (Sdks.payload_bytes payload))
                     (without_sha256_marks signature))
    else Raised (TypeError "comparing strings with non-ASCII characters is not supported").
Proof.
  unfold Sdks.verify_signature. cbv zeta. rewrite replace_with_empty_sha256.
  unfold compare_digest. rewrite digest_is_ascii. reflexivity.
Qed.

(** X22: for a secret and a payload that UTF-8 can encode (a payload given as
    bytes is taken as it is), [verify_signature] raises, and then [TypeError]
    from [hmac.compare_digest], exactly when the signature still has a
    character outside ASCII after the removal of every ["sha256="]; otherwise
    it returns whether what is left equals the digest. *)
Theorem prefix_scheme_raises_iff (signature secret : string) :
  let provided := without_sha256_marks signature in
  let type_error :=
    TypeError "comparing strings with non-ASCII characters is not supported" in
  encodable secret = true ->
  (forall text : string,
     encodable text = true ->
     let digest := hmac_hexdigest (encode secret) (encode text) in
     ((exists e, Sdks.verify_signature (Text text) signature secret = Raised e)
      <-> is_ascii provided = false)
     /\ (is_ascii provided = false ->
         Sdks.verify_signature (Text text) signature secret = Raised type_error)
     /\ (is_ascii provided = true ->
         Sdks.verify_signature (Text text) signature secret
         = Returned (String.eqb digest provided)))
  /\ (forall raw : bytes,
        let digest := hmac_hexdigest (encode secret) raw in
        ((exists e, Sdks.verify_signature (Raw raw) signature secret = Raised e)
         <-> is_ascii provided = false)
        /\ (is_ascii provided = false ->
            Sdks.verify_signature (Raw raw) signature secret = Raised type_error)
        /\ (is_ascii provided = true ->
            Sdks.verify_signature (Raw raw) signature secret
            = Returned (String.eqb digest provided))).
Proof.
  intros provided type_error _.
  assert (H : forall p : payload,
             ((exists e, Sdks.verify_signature p signature secret = Raised e)
              <-> is_ascii provided = false)
             /\ (is_ascii provided = false ->
                 Sdks.verify_signature p signature secret = Raised type_error)
             /\ (is_ascii provided = true ->
                 Sdks.verify_signature p signature secret
                 = Returned (String.eqb (hmac_hexdigest (encode secret) (Sdks.payload_bytes p))
                               provided))).
  { intros p. rewrite (prefix_scheme_outcome p signature secret). fold provided.
    destruct (is_ascii provided).
    - split; [split; [intros [e [=]]|discriminate]|]. split; [discriminate|reflexivity].
    - split; [split; [reflexivity|eauto]|]. split; [reflexivity|discriminate]. }
  split; [intros text _; exact (H (Text text)) | intros raw; exact (H (Raw raw))].
Qed.

Lemma prefix_scheme_raises_iff_witness :
  Sdks.verify_signature (Text "[1]") "sha256=00" "whsec"
  = Returned (String.eqb (hmac_hexdigest (encode "whsec") (encode "[1]")) "00")
  /\ Sdks.verify_signature (Raw [Byte.x5b; Byte.x31; Byte.x5d])
       ("sha256=" +:+ String (ascii_of_N 195) (String (ascii_of_N 169) "")) "whsec"
     = Raised (TypeError "comparing strings with non-ASCII characters is not supported").
Proof.
  split.
  - apply (proj2 (proj2 (proj1 (prefix_scheme_raises_iff "sha256=00" "whsec" eq_refl)
                           "[1]" eq_refl))).
    reflexivity.
  - apply (proj1 (proj2 (proj2 (prefix_scheme_raises_iff
                                  ("sha256=" +:+ String (ascii_of_N 195)
                                                   (String (ascii_of_N 169) ""))
                                  "whsec" eq_refl)
                           [Byte.x5b; Byte.x31; Byte.x5d]))).
    reflexivity.
Defined.

(** ** Client construction *)

Lemma rstrip_slash_spec (s : string) :
  exists n, s = Sdks.rstrip_slash s +:+ slashes n
            /\ ends_with "/" (Sdks.rstrip_slash s) = false.
Proof.
  induction s as [|c s (n & Hs & He)]; [exists 0%nat; split; reflexivity|].
  cbn [Sdks.rstrip_slash]. destruct (Sdks.rstrip_slash s) as [|a r] eqn:Hr.
  - simpl in Hs. destruct (Ascii.eqb_spec c "/") as [->|Hne].
    + exists (S n). rewrite Hs. split; reflexivity.
    + exists n. rewrite Hs. split; [reflexivity|].
      cbn [ends_with]. apply Ascii.eqb_neq. exact Hne.
  - exists n. split; [rewrite Hs at 1; reflexivity|exact He].
Qed.

(** X23: [Mailat(api_key, base_url, ...)] refuses an empty API key with
    [ValueError]; otherwise the client keeps [max_retries] as given and the
    base URL without its trailing slashes: what was cut is slashes only, and
    what is kept does not end with one. *)
Theorem init_normalises_base_url (api_key base_url : string) (max_retries : Z) :
  (api_key = "" ->
   Sdks.__init__ api_key base_url max_retries = Raised (ValueError "API key is required"))
  /\ (api_key <> "" ->
      exists self n,
        Sdks.__init__ api_key base_url max_retries = Returned self
        /\ Sdks.max_retries self = max_retries
        /\ base_url = Sdks.base_url self +:+ slashes n
        /\ ends_with "/" (Sdks.base_url self) = false).
Proof.
  unfold Sdks.__init__. split.
  - intros ->. reflexivity.
  - intros Hne. destruct (String.eqb_spec api_key "") as [|_]; [contradiction|].
    destruct (rstrip_slash_spec base_url) as (n & Hs & He).
    eexists _, n. split; [reflexivity|]. cbn [Sdks.max_retries Sdks.base_url]. auto.
Qed.

Lemma init_normalises_base_url_witness :
  exists self n,
    Sdks.__init__ "key" "https://api.mailat.co/api/v1//" 3 = Returned self
    /\ Sdks.max_retries self = 3
    /\ "https://api.mailat.co/api/v1//" = Sdks.base_url self +:+ slashes n
    /\ ends_with "/" (Sdks.base_url self) = false.
Proof.
  apply (init_normalises_base_url "key" "https://api.mailat.co/api/v1//" 3).
  discriminate.
Defined.

(** ** Template variables *)

Example extract_variables_examples :
  let t := Templates.of_ascii in
  Templates.findall 0
    (t "Hi {{name}}, {{#items}}{{ price }}{{/items}}{{! note }}{{}} {{{x}}")
  = map t ["name"; "#items"; " price "; "/items"; "! note "; "{x"]
  /\ map Templates.clean (map t ["name"; "#items"; " price "; "/items"; "! note "; " a b "])
     = map (fun s => Returned (t s)) ["name"; "items"; "price"; "items"; "!"; "a"]
  /\ map Templates.keep (map t ["name"; "!"; "!note"]) = [true; false; false]
  /\ Templates.extract_variables (t "{{ }}") = Raised Templates.IndexError
  /\ Templates.extract_variables (t "{{#}}") = Raised Templates.IndexError
  /\ Templates.words (t "  ab  cd e ") = map t ["ab"; "cd"; "e"].
Proof. vm_compute. repeat split; reflexivity. Qed.

(** A no-break space (U+00A0) is white space to [strip] and [split]. *)
Example extract_variables_no_break_space :
  let t := Templates.of_ascii in
  Templates.findall 0 (t "{{" ++ [0xA0] ++ t "name" ++ [0xA0] ++ t "}}")%list
  = [([0xA0] ++ t "name" ++ [0xA0])%list]
  /\ Templates.clean ([0xA0] ++ t "name" ++ [0xA0])%list = Returned (t "name")
  /\ Templates.clean (t "a" ++ [0x2003] ++ t "b")%list = Returned (t "a")
  /\ Templates.extract_variables (t "{{" ++ [0xA0] ++ t "}}")%list = Raised Templates.IndexError.
Proof. vm_compute. repeat split; reflexivity. Qed.

Lemma words_are_words (s : Templates.ustr) : Forall is_word (Templates.words s).
Proof.
  induction s as [|c s IH]; [constructor|].
  cbn [Templates.words]. destruct (py_isspace c) eqn:Hc; [exact IH|].
  assert (Hone : is_word [c]).
  { split; [discriminate|]. cbn [forallb]. unfold not_space. rewrite Hc. reflexivity. }
  destruct s as [|c' s'']; [constructor; [exact Hone|constructor]|].
  destruct (py_isspace c'); [constructor; [exact Hone|exact IH]|].
  destruct (Templates.words (c' :: s'')) as [|w ws]; [constructor; [exact Hone|constructor]|].
  inversion IH as [|? ? [Hw Hall] Hws]; subst. constructor; [|exact Hws].
  split; [discriminate|]. cbn [forallb]. unfold not_space at 1. rewrite Hc, Hall. reflexivity.
Qed.

Lemma words_nil_iff (s : Templates.ustr) :
  Templates.words s = [] <-> forallb py_isspace s = true.
Proof.
  induction s as [|c s IH]; [split; reflexivity|].
  cbn [Templates.words forallb]. destruct (py_isspace c); cbn [andb]; [exact IH|].
  split; [|discriminate].
  destruct s as [|c' s'']; [discriminate|].
  destruct (py_isspace c'); [discriminate|].
  destruct (Templates.words (c' :: s'')); discriminate.
Qed.

Lemma chars_in_tail (w s : Templates.ustr) (a : Z) : chars_in w s -> chars_in w (a :: s).
Proof. intros H c Hc. right. exact (H c Hc). Qed.

Lemma chars_in_cons (w s : Templates.ustr) (a : Z) :
  chars_in w s -> chars_in (a :: w) (a :: s).
Proof. intros H c [Hc|Hc]; [left; exact Hc|right; exact (H c Hc)]. Qed.

Lemma chars_in_refl (s : Templates.ustr) : chars_in s s.
Proof. intros c H. exact H. Qed.

Lemma chars_in_nil (s : Templates.ustr) : chars_in [] s.
Proof. intros c []. Qed.

Lemma chars_in_trans (a b c : Templates.ustr) :
  chars_in a b -> chars_in b c -> chars_in a c.
Proof. intros H1 H2 x Hx. apply H2, H1, Hx. Qed.

Lemma lstrip_chars_in (s : Templates.ustr) : chars_in (Templates.lstrip s) s.
Proof.
  induction s as [|a s IH]; [apply chars_in_refl|].
  cbn [Templates.lstrip]. destruct (py_isspace a); [apply chars_in_tail, IH|apply chars_in_refl].
Qed.

Lemma rstrip_chars_in (s : Templates.ustr) : chars_in (Templates.rstrip s) s.
Proof.
  induction s as [|a s IH]; [apply chars_in_refl|].
  cbn [Templates.rstrip]. destruct (Templates.rstrip s) as [|b r].
  - destruct (py_isspace a); [apply chars_in_nil|].
    apply chars_in_cons, chars_in_nil.
  - apply chars_in_cons, IH.
Qed.

Lemma lstrip_marks_chars_in (marks s : Templates.ustr) :
  chars_in (Templates.lstrip_chars marks s) s.
Proof.
  induction s as [|a s IH]; [apply chars_in_refl|].
  cbn [Templates.lstrip_chars].
  destruct (Templates.member a marks); [apply chars_in_tail, IH|apply chars_in_refl].
Qed.

Lemma words_chars_in (s : Templates.ustr) :
  Forall (fun w => chars_in w s) (Templates.words s).
Proof.
  induction s as [|c s IH]; [constructor|].
  assert (Hone : chars_in [c] (c :: s)) by apply chars_in_cons, chars_in_nil.
  assert (Htail : Forall (fun w => chars_in w (c :: s)) (Templates.words s)).
  { eapply Forall_impl; [exact IH|]. intros w Hw. apply chars_in_tail, Hw. }
  cbn [Templates.words]. destruct (py_isspace c); [exact Htail|].
  destruct s as [|c' s'']; [constructor; [exact Hone|constructor]|].
  destruct (py_isspace c'); [constructor; [exact Hone|exact Htail]|].
  destruct (Templates.words (c' :: s'')) as [|w ws]; [constructor; [exact Hone|constructor]|].
  inversion IH as [|? ? Hw Hws]; subst. inversion Htail as [|? ? _ Hws']; subst.
  constructor; [apply chars_in_cons, Hw|exact Hws'].
Qed.

Lemma span_not_close_run (s : Templates.ustr) :
  ~ In Templates.CLOSE (fst (Templates.span_not_close s)).
Proof.
  induction s as [|c s IH]; [intros []|].
  cbn [Templates.span_not_close]. destruct (Z.eqb_spec c Templates.CLOSE) as [|Hc]; [intros []|].
  destruct (Templates.span_not_close s) as [run rest]. cbn [fst] in *.
  intros [E|Hin]; [apply Hc; exact E|exact (IH Hin)].
Qed.

Lemma match_here_group (s g : Templates.ustr) (len : nat) :
  Templates.match_here s = Some (g, len) -> ~ In Templates.CLOSE g.
Proof.
  unfold Templates.match_here.
  destruct s as [|a [|b t]]; try discriminate.
  destruct ((a =? Templates.OPEN) && (b =? Templates.OPEN)); [|discriminate].
  pose proof (span_not_close_run t) as Hrun.
  destruct (Templates.span_not_close t) as [run rest]. cbn [fst] in Hrun.
  destruct run as [|c run]; [discriminate|].
  destruct rest as [|x [|y rest]]; try discriminate.
  destruct ((x =? Templates.CLOSE) && (y =? Templates.CLOSE)); [|discriminate].
  intros [= <- _]. exact Hrun.
Qed.

Lemma findall_groups (s : Templates.ustr) :
  forall skip, Forall (fun g => ~ In Templates.CLOSE g) (Templates.findall skip s).
Proof.
  induction s as [|c s IH]; intros skip; [constructor|].
  cbn [Templates.findall]. destruct skip as [|k]; [|apply IH].
  destruct (Templates.match_here (c :: s)) as [[g len]|] eqn:Hm; [|apply IH].
  constructor; [exact (match_here_group _ _ _ Hm)|apply IH].
Qed.

Lemma clean_returned (m var : Templates.ustr) :
  Templates.clean m = Returned var -> is_word var /\ chars_in var m.
Proof.
  unfold Templates.clean.
  pose proof (words_are_words
                (Templates.lstrip_chars Templates.MARKS
                   (Templates.rstrip (Templates.lstrip m)))) as Hw.
  pose proof (words_chars_in
                (Templates.lstrip_chars Templates.MARKS
                   (Templates.rstrip (Templates.lstrip m)))) as Hc.
  destruct (Templates.words _) as [|w ws]; [discriminate|].
  intros [= <-]. inversion Hw; subst. inversion Hc; subst. split; [assumption|].
  eapply chars_in_trans; [eassumption|].
  eapply chars_in_trans; [apply lstrip_marks_chars_in|].
  eapply chars_in_trans; [apply rstrip_chars_in|apply lstrip_chars_in].
Qed.

Lemma collect_invariant (P : Templates.ustr -> Prop) (matches : list Templates.ustr) :
  (forall m var, In m matches -> Templates.clean m = Returned var ->
                 Templates.keep var = true -> P var) ->
  forall acc vars,
    (forall v, v ∈ acc -> P v) ->
    Templates.collect matches acc = Returned vars ->
    forall v, v ∈ vars -> P v.
Proof.
  induction matches as [|m matches IH]; intros Hm acc vars Hacc; cbn [Templates.collect].
  - intros [= <-]. exact Hacc.
  - destruct (Templates.clean m) as [var|e] eqn:Hc; cbn [bind]; [|discriminate].
    apply IH.
    + intros m' var' Hin. apply Hm. right. exact Hin.
    + intros v. destruct (Templates.keep var) eqn:Hk; [|apply Hacc].
      rewrite elem_of_union, elem_of_singleton. intros [->|Hv]; [|apply Hacc, Hv].
      apply (Hm m); [left; reflexivity|exact Hc|exact Hk].
Qed.

(** X24: every name [extract_variables] returns is non-empty, has no white
    space (in the sense of [str.isspace], no-break space included) and no
    closing brace in it, and does not start with ["!"]. *)
Theorem extract_variables_names (content : Templates.ustr) (vars : gset Templates.ustr)
    (v : Templates.ustr) :
  Templates.extract_variables content = Returned vars ->
  v ∈ vars ->
  v <> [] /\ forallb not_space v = true
  /\ ~ In Templates.CLOSE v /\ Templates.starts_with_bang v = false.
Proof.
  unfold Templates.extract_variables. intros Hvars.
  apply (collect_invariant
           (fun v => v <> [] /\ forallb not_space v = true
                     /\ ~ In Templates.CLOSE v /\ Templates.starts_with_bang v = false)
           (Templates.findall 0 content)) with (acc := ∅) (vars := vars);
    [|intros x Hx; destruct (not_elem_of_empty x Hx)|exact Hvars].
  intros m var Hin Hc Hk.
  destruct (clean_returned _ _ Hc) as [[Hne Hns] Hch].
  split; [exact Hne|]. split; [exact Hns|]. split.
  - pose proof (findall_groups content 0) as Hg.
    rewrite List.Forall_forall in Hg. specialize (Hg m Hin).
    intros Hv. apply Hg, Hch, Hv.
  - unfold Templates.keep in Hk. destruct var; [discriminate Hk|].
    apply negb_true_iff in Hk. exact Hk.
Qed.

Lemma extract_variables_names_witness :
  let t := Templates.of_ascii in
  t "items" <> [] /\ forallb not_space (t "items") = true
  /\ ~ In Templates.CLOSE (t "items") /\ Templates.starts_with_bang (t "items") = false.
Proof.
  intros t.
  apply (extract_variables_names
           (t "{{#items}}x{{" ++ [0xA0] ++ t "/items" ++ [0xA0] ++ t "}}")%list
           {[ t "items" ]} (t "items"));
    [vm_compute; reflexivity | apply elem_of_singleton; reflexivity].
Defined.

Lemma collect_raises_iff (matches : list Templates.ustr) :
  forall acc,
    Templates.collect matches acc = Raised Templates.IndexError
    <-> Exists (fun m => Templates.clean m = Raised Templates.IndexError) matches.
Proof.
  induction matches as [|m matches IH]; intros acc; cbn [Templates.collect].
  - split; [discriminate|]. intros H. inversion H.
  - destruct (Templates.clean m) as [var|[]] eqn:Hc; cbn [bind].
    + rewrite IH. split; [intros H; right; exact H|].
      intros H. inversion H as [? ? Hm|? ? Hrest]; subst; [congruence|exact Hrest].
    + split; [intros _; left; exact Hc|reflexivity].
Qed.

Lemma clean_raises_iff (m : Templates.ustr) :
  Templates.clean m = Raised Templates.IndexError
  <-> forallb py_isspace
        (Templates.lstrip_chars Templates.MARKS (Templates.rstrip (Templates.lstrip m)))
      = true.
Proof.
  rewrite <- words_nil_iff. unfold Templates.clean.
  destruct (Templates.words _); split; try discriminate; reflexivity.
Qed.

Lemma match_here_needs_open (s : Templates.ustr) :
  ~ In Templates.OPEN s -> Templates.match_here s = None.
Proof.
  destruct s as [|a [|b t]]; [reflexivity..|]. intros H.
  unfold Templates.match_here.
  destruct (Z.eqb_spec a Templates.OPEN) as [E|_]; [|reflexivity].
  exfalso. apply H. left. exact E.
Qed.

Lemma findall_needs_open (s : Templates.ustr) :
  ~ In Templates.OPEN s -> Templates.findall 0 s = [].
Proof.
  induction s as [|a s IH]; [reflexivity|]. intros H.
  cbn [Templates.findall]. rewrite (match_here_needs_open _ H).
  apply IH. intros Hin. apply H. right. exact Hin.
Qed.

(** X25: [extract_variables] raises [IndexError] exactly when some
    placeholder is blank once the white space around it (in the sense of
    [str.isspace]) and the leading [#], [/] and [^] marks are removed
    (["{{ }}"] or ["{{#}}"], say); content without an opening brace yields
    the empty set. *)
Theorem extract_variables_raises_iff (content : Templates.ustr) :
  (Templates.extract_variables content = Raised Templates.IndexError
   <-> Exists (fun m => forallb py_isspace
                          (Templates.lstrip_chars Templates.MARKS
                             (Templates.rstrip (Templates.lstrip m))) = true)
              (Templates.findall 0 content))
  /\ (~ In Templates.OPEN content -> Templates.extract_variables content = Returned ∅).
Proof.
  unfold Templates.extract_variables. split.
  - rewrite collect_raises_iff. rewrite !List.Exists_exists.
    split; intros (m & Hin & Hm); exists m; (split; [exact Hin|]);
      apply clean_raises_iff; exact Hm.
  - intros H. rewrite (findall_needs_open _ H). reflexivity.
Qed.

Lemma extract_variables_raises_iff_witness :
  Templates.extract_variables (Templates.of_ascii "Hello, world") = Returned ∅.
Proof.
  apply (extract_variables_raises_iff (Templates.of_ascii "Hello, world")).
  vm_compute. intros H. repeat (destruct H as [H|H]; [discriminate H|]). exact H.
Defined.
